(** * The Git diff widget: change navigation and revision-aware URIs

    A shallow embedding of [packages/git/src/browser/diff/git-diff-widget.tsx]:
    the widget's fields become a record, its methods become computations in a
    small state-and-exception monad that also records the requests sent to
    the injected collaborators, and the injected services become type
    classes.  Rendering, focus and key listeners are left out. *)

From Stdlib Require Import String List ZArith Bool Lia DecimalString Arith.
Import ListNotations.

Local Open Scope string_scope.
Local Open Scope Z_scope.

Set Implicit Arguments.

(** ** Values of the JavaScript runtime *)

Module Js.

(** [x + ''] for a [string | undefined]: [undefined] prints as the word
    "undefined". *)
Definition to_string (x : option string) : string :=
  match x with
  | Some s => s
  | None => "undefined"
  end.

(** [n + ''] for a number holding a non-negative integer: its decimal
    digits (what JavaScript prints for the integers below 2^53). *)
Definition number_to_string (n : N) : string :=
  NilZero.string_of_uint (N.to_uint n).

(** Truthiness of a [string | undefined]: [undefined] and the empty
    string are falsy. *)
Definition truthy (x : option string) : bool :=
  match x with
  | Some s => negb (String.eqb s EmptyString)
  | None => false
  end.

End Js.

(** ** Data model *)

(** Modelled from the spec: the status tag of a changed file
    ([GitFileStatus] of [../../common], not part of this file); [New] is the
    spec's Added. *)
Inductive GitFileStatus : Type :=
| New | Copied | Modified | Renamed | Deleted | Conflicted.

Definition GitFileStatus_eqb (a b : GitFileStatus) : bool :=
  match a, b with
  | New, New | Copied, Copied | Modified, Modified
  | Renamed, Renamed | Deleted, Deleted | Conflicted, Conflicted => true
  | _, _ => false
  end.

(** Modelled from the spec: a ChangeEntry ([GitFileChange] of
    [../../common]): its own URI, the prior URI of a rename or copy, and the
    status tag.  URIs are held as strings, as [new URI(change.uri)] shows. *)
Record GitFileChange : Type := mkChange {
  uri : string;
  oldUri : option string;
  status : GitFileStatus
}.

(** The nodes of the list are the changes themselves (the presentation
    fields of [GitFileChangeNode] play no part here). *)
Definition GitFileChangeNode : Type := GitFileChange.

(** [fromRevision] is a [string | number]. *)
Inductive Revision : Type :=
| RevString (s : string)
| RevNumber (n : N).

(** Modelled from the spec: the RevisionRange ([Git.Options.Range]). *)
Record Range : Type := mkRange {
  range_fromRevision : option Revision;
  range_toRevision : option string
}.

(** Modelled from the spec: the DiffOptions ([Git.Options.Diff]), read
    through [options.uri] and [options.range]. *)
Record DiffOptions : Type := mkOptions {
  options_uri : option string;
  options_range : option Range
}.

(** ** URIs *)

(** Modelled from the spec: a resource identifier, held by its components
    (the [URI] class of [@theia/core] is not part of this file). *)
Record URI : Type := mkURI {
  scheme : string;
  authority : string;
  path : string;
  query : string;
  fragment : string
}.

(** What this file takes from the URI library without looking inside:
    the parser behind [new URI(string)], the printer [toString], the
    methods [withScheme] and [withQuery], the encoder [DiffUris.encode] of
    a pair into one diff URI, and the constant [GIT_RESOURCE_SCHEME] of
    [../git-resource]. *)
Class UriLibrary : Type := {
  new_URI : string -> URI;
  URI_toString : URI -> string;
  withScheme : string -> URI -> URI;
  withQuery : string -> URI -> URI;
  DiffUris_encode : URI -> URI -> URI;
  GIT_RESOURCE_SCHEME : string
}.

(** ** The revision URI resolver, on given options *)

Section Resolver.

Context {lib : UriLibrary}.

(** [get toRevision] : [this.options.range && this.options.range.toRevision]. *)
Definition toRevision (o : DiffOptions) : option string :=
  match options_range o with
  | Some r => range_toRevision r
  | None => None
  end.

(** [get fromRevision] : [this.options.range && this.options.range.fromRevision]. *)
Definition fromRevision (o : DiffOptions) : option Revision :=
  match options_range o with
  | Some r => range_fromRevision r
  | None => None
  end.

(** The local [fromURI] before a revision is attached: the prior URI when
    [change.oldUri] is truthy, the entry's own URI otherwise. *)
Definition fromURI_base (change : GitFileChange) : URI :=
  if Js.truthy (oldUri change)
  then new_URI (Js.to_string (oldUri change))
  else new_URI (uri change).

(** The query attached to [fromURI] (lines 337-346). *)
Definition fromQuery (o : DiffOptions) : string :=
  match fromRevision o with
  | Some (RevString s) => s
  | Some (RevNumber n) =>
      Js.to_string (toRevision o) ++ "~" ++ Js.number_to_string n
  | None =>
      (* default is to compare with previous revision *)
      Js.to_string (toRevision o) ++ "~1"
  end.

(** The local [fromURI] of [getUriToOpen] once the revision is attached. *)
Definition fromURI (o : DiffOptions) (change : GitFileChange) : URI :=
  withQuery (fromQuery o) (withScheme GIT_RESOURCE_SCHEME (fromURI_base change)).

(** The local [toURI] of [getUriToOpen]. *)
Definition toURI (o : DiffOptions) (change : GitFileChange) : URI :=
  if Js.truthy (toRevision o)
  then withQuery (Js.to_string (toRevision o))
         (withScheme GIT_RESOURCE_SCHEME (new_URI (uri change)))
  else new_URI (uri change).

(** [getUriToOpen(change)] when [this.options] is [o]. *)
Definition uriToOpen (o : DiffOptions) (change : GitFileChange) : URI :=
  if GitFileStatus_eqb (status change) Deleted then fromURI o change
  else if GitFileStatus_eqb (status change) New then toURI o change
  else DiffUris_encode (fromURI o change) (toURI o change).

End Resolver.

(** ** Collaborators *)

(** The repository a diff is asked of. *)
Record Repository : Type := mkRepository { localUri : string }.

(** An open editor, known by an identifier, and the widget that holds it. *)
Definition TextEditor : Type := string.

Record EditorWidget : Type := mkEditorWidget { editor : TextEditor }.

(** What the widget asks of a [DiffNavigator] before it moves. *)
Record DiffNavigator : Type := mkDiffNavigator {
  canNavigate : bool;
  hasNext : bool;
  hasPrevious : bool
}.

(** [EditorOpenerOptions], of which only [mode] is set here. *)
Record EditorOpenerOptions : Type := mkOpenerOptions { mode : string }.

(** [@inject(Git)]: what [git.diff(repository, { range, uri })] answers to
    one call (a call that is rejected is not modelled). *)
Class Git : Type := {
  git_diff : Repository -> option Range -> option string -> list GitFileChange
}.

(** [repositoryProvider.findRepositoryOrSelected(options)], [undefined] when
    there is no repository. *)
Class RepositoryProvider : Type := {
  findRepositoryOrSelected : DiffOptions -> option Repository
}.

(** [@inject(EditorManager)]: the widget already open on a URI, if any, and
    the widget that an open request yields. *)
Class EditorManager : Type := {
  getByUri : URI -> option EditorWidget;
  editorManager_open : URI -> option EditorOpenerOptions -> option EditorWidget
}.

(** [@inject(DiffNavigatorProvider)]. *)
Class DiffNavigators : Type := {
  diffNavigatorProvider : TextEditor -> DiffNavigator
}.

(** The requests the widget sends out, in the order it sends them. *)
Inductive Request : Type :=
| GitDiff (repository : Repository) (range : option Range) (uri : option string)
| Update
| EditorOpen (uri : URI) (options : option EditorOpenerOptions)
| NavigatorNext (e : TextEditor)
| NavigatorPrevious (e : TextEditor).

Definition is_GitDiff (r : Request) : bool :=
  match r with GitDiff _ _ _ => true | _ => false end.

Definition is_Update (r : Request) : bool :=
  match r with Update => true | _ => false end.

(** The requests of a list that go to a collaborator: all but the repaint
    requests [update()] to the host. *)
Definition apart_from_updates (rs : list Request) : list Request :=
  filter (fun r => negb (is_Update r)) rs.

(** ** The widget *)

(** Modelled from the spec: the SelectionState.  The base class
    [GitNavigableListWidget], which keeps the selection, is not part of this
    file; in the spec the selection is an index into the current list, -1
    meaning that nothing is selected. *)
Definition SelectionState : Type := Z.

(** The fields of [GitDiffWidget] that the modelled methods read or write:
    [fileChangeNodes] and [options] of the class itself, [gitNodes] of the
    base class (the list that navigation walks, which [render] takes from
    [fileChangeNodes]), the selection, and the requests sent so far, oldest
    first. *)
Record Widget : Type := mkWidget {
  fileChangeNodes : list GitFileChangeNode;
  options : option DiffOptions;
  gitNodes : list GitFileChangeNode;
  selectedIndex : SelectionState;
  requests : list Request
}.

(** The object that [storeState] hands to the host. *)
Record StoredState : Type := mkStored {
  stored_fileChangeNodes : list GitFileChangeNode;
  stored_options : option DiffOptions
}.

(** ** Computations of the widget *)

(** How a method call ends: with a value, or with a thrown [TypeError]
    (for an [async] method: with its promise rejected by that error). *)
Inductive Completion (A : Type) : Type :=
| Returned (a : A)
| Thrown.
Arguments Thrown {A}.

Definition M (A : Type) : Type := Widget -> Completion A * Widget.

Definition ret {A} (a : A) : M A := fun w => (Returned a, w).

Definition throw {A} : M A := fun w => (Thrown, w).

Definition bind {A B} (m : M A) (k : A -> M B) : M B :=
  fun w =>
    match m w with
    | (Returned a, w') => k a w'
    | (Thrown, w') => (Thrown, w')
    end.

Notation "x <- m ;; k" := (bind m (fun x => k))
  (at level 61, m at next level, right associativity).
Notation "m ;;; k" := (bind m (fun _ => k))
  (at level 61, right associativity).

(** A call whose promise is neither awaited nor returned (a bare call of
    an [async] method, the callback handed to [then]): what it did stays
    done, and a rejection is dropped, so the caller goes on normally. *)
Definition unawaited {A} (m : M A) : M unit :=
  fun w => (Returned tt, snd (m w)).

Definition this : M Widget := fun w => (Returned w, w).

Definition send (r : Request) : M unit :=
  fun w => (Returned tt,
            mkWidget (fileChangeNodes w) (options w) (gitNodes w)
                     (selectedIndex w) (requests w ++ [r])).

Definition set_fileChangeNodes (l : list GitFileChangeNode) : M unit :=
  fun w => (Returned tt,
            mkWidget l (options w) (gitNodes w) (selectedIndex w) (requests w)).

Definition set_options (o : option DiffOptions) : M unit :=
  fun w => (Returned tt,
            mkWidget (fileChangeNodes w) o (gitNodes w) (selectedIndex w)
                     (requests w)).

Definition set_selectedIndex (i : Z) : M unit :=
  fun w => (Returned tt,
            mkWidget (fileChangeNodes w) (options w) (gitNodes w) i
                     (requests w)).

(** The widget a call leaves behind, and how the call ended. *)
Definition exec {A} (m : M A) (w : Widget) : Widget := snd (m w).
Definition completion {A} (m : M A) (w : Widget) : Completion A := fst (m w).

(** The requests a call added to those already sent. *)
Definition sent {A} (m : M A) (w : Widget) : list Request :=
  skipn (length (requests w)) (requests (exec m w)).

(** [n] calls of the same method in a row. *)
Fixpoint times (n : nat) (m : M unit) : M unit :=
  match n with
  | O => ret tt
  | S n' => m ;;; times n' m
  end.

(** ** Selection helpers of the base class *)

(** Modelled from the spec: [indexOfSelected] of [GitNavigableListWidget]
    (not part of this file) is the SelectionState, the index of the
    selected entry or -1. *)
Definition indexOfSelected : M Z :=
  w <- this ;; ret (selectedIndex w).

(** Modelled from the spec: [getSelected()] of [GitNavigableListWidget] is
    the entry of [gitNodes] at the selection index, [undefined] when nothing
    is selected. *)
Definition getSelected : M (option GitFileChangeNode) :=
  w <- this ;;
  ret (if selectedIndex w <? 0 then None
       else nth_error (gitNodes w) (Z.to_nat (selectedIndex w))).

(** Modelled from the spec: [this.selectNode(this.gitNodes[k])] of
    [GitNavigableListWidget] makes [k] the selection index; there is no
    node to select when [k] is outside the list.  Whether selecting also
    asks the host for a repaint is the base class's business and is not
    recorded: what is said below of the requests of a selection leaves
    [update()] aside (see [apart_from_updates]). *)
Definition selectNodeAt (k : Z) : M unit :=
  w <- this ;;
  if (0 <=? k) && (k <? Z.of_nat (length (gitNodes w)))
  then set_selectedIndex k
  else throw.

(** Modelled from the spec: the type guard [GitFileChangeNode.is] of
    [../git-file-change-node] holds of every entry of the list and fails
    on [undefined]. *)
Definition GitFileChangeNode_is (node : option GitFileChangeNode) : bool :=
  match node with
  | Some _ => true
  | None => false
  end.

(** The node that the test [GitFileChangeNode.is(selected)] lets through
    (in [selected && GitFileChangeNode.is(selected)] the first conjunct
    adds nothing, the guard failing on [undefined]). *)
Definition narrowed (selected : option GitFileChangeNode)
  : option GitFileChangeNode :=
  if GitFileChangeNode_is selected then selected else None.

(** ** Methods of [GitDiffWidget] *)

Section Methods.

Context {lib : UriLibrary} {git : Git} {repositoryProvider : RepositoryProvider}
        {editorManager : EditorManager} {navigators : DiffNavigators}.

(** [this.update()]: asks the host for a repaint. *)
Definition update : M unit := send Update.

(** [setContent(options)], lines 91-102. *)
Definition setContent (o : DiffOptions) : M unit :=
  set_options (Some o) ;;;
  match findRepositoryOrSelected o with
  | Some repository =>
      send (GitDiff repository (options_range o) (options_uri o)) ;;;
      set_fileChangeNodes
        (git_diff repository (options_range o) (options_uri o)) ;;;
      update
  | None => ret tt
  end.

(** [storeState()], lines 104-110. *)
Definition storeState : M StoredState :=
  w <- this ;; ret (mkStored (fileChangeNodes w) (options w)).

(** [restoreState(oldState)], lines 113-117. *)
Definition restoreState (oldState : StoredState) : M unit :=
  set_fileChangeNodes (stored_fileChangeNodes oldState) ;;;
  set_options (stored_options oldState) ;;;
  update.

(** [getUriToOpen(change)], lines 330-362: reading [this.fromRevision]
    throws while [this.options] is still [undefined]. *)
Definition getUriToOpen (change : GitFileChange) : M URI :=
  w <- this ;;
  match options w with
  | Some o => ret (uriToOpen o change)
  | None => throw
  end.

(** [openChange(change, options)], lines 370-373. *)
Definition openChange (change : GitFileChange)
           (opts : option EditorOpenerOptions) : M (option EditorWidget) :=
  uriToOpen <- getUriToOpen change ;;
  send (EditorOpen uriToOpen opts) ;;;
  ret (editorManager_open uriToOpen opts).

(** [openChanges(uri, options)], lines 364-368; [n.uri] is a string
    already, so [n.uri.toString()] is [n.uri]. *)
Definition openChanges (u : URI) (opts : option EditorOpenerOptions)
  : M (option EditorWidget) :=
  let stringUri := URI_toString u in
  w <- this ;;
  match find (fun n => String.eqb (uri n) stringUri) (fileChangeNodes w) with
  | Some change => openChange change opts
  | None => ret None
  end.

(** [revealChange(change)], lines 375-377, an [async] method: [Thrown] is
    the rejection of the promise it returns. *)
Definition revealChange (change : GitFileChange) : M unit :=
  openChange change (Some (mkOpenerOptions "reveal")) ;;; ret tt.

(** [openSelected()], lines 323-328: the promise of [revealChange] is
    dropped. *)
Definition openSelected : M unit :=
  selected <- getSelected ;;
  match selected with
  | Some change => unawaited (revealChange change)
  | None => ret tt
  end.

(** [selectNextNode()], lines 301-308. *)
Definition selectNextNode : M unit :=
  idx <- indexOfSelected ;;
  w <- this ;;
  let len := Z.of_nat (length (gitNodes w)) in
  if (0 <=? idx) && (idx <? len - 1) then selectNodeAt (idx + 1)
  else if (0 <? len) && ((idx =? -1) || (idx =? len - 1)) then selectNodeAt 0
  else ret tt.

(** [selectPreviousNode()], lines 310-317. *)
Definition selectPreviousNode : M unit :=
  idx <- indexOfSelected ;;
  w <- this ;;
  let len := Z.of_nat (length (gitNodes w)) in
  if 0 <? idx then selectNodeAt (idx - 1)
  else if idx =? 0 then selectNodeAt (len - 1)
  else ret tt.

(** [navigateRight()], lines 258-279.  The callback of
    [getByUri(uri).then] runs on what the editor manager answers; the
    promise of [then] is dropped, and so is the one of [revealChange]. *)
Definition navigateRight : M unit :=
  selected <- getSelected ;;
  match narrowed selected with
  | Some change =>
      uri <- getUriToOpen change ;;
      unawaited
        match getByUri uri with
        | Some widget =>
            let diffNavigator := diffNavigatorProvider (editor widget) in
            if canNavigate diffNavigator && hasNext diffNavigator
            then send (NavigatorNext (editor widget))
            else selectNextNode ;;; openSelected
        | None => unawaited (revealChange change)
        end
  | None =>
      w <- this ;;
      if 0 <? Z.of_nat (length (gitNodes w))
      then selectNodeAt 0 ;;; openSelected
      else ret tt
  end.

(** [navigateLeft()], lines 281-299, with the same dropped promises. *)
Definition navigateLeft : M unit :=
  selected <- getSelected ;;
  match narrowed selected with
  | Some change =>
      uri <- getUriToOpen change ;;
      unawaited
        match getByUri uri with
        | Some widget =>
            let diffNavigator := diffNavigatorProvider (editor widget) in
            if canNavigate diffNavigator && hasPrevious diffNavigator
            then send (NavigatorPrevious (editor widget))
            else selectPreviousNode ;;; openSelected
        | None => unawaited (revealChange change)
        end
  | None => ret tt
  end.

(** [doShowNextChange()], lines 212-215. *)
Definition doShowNextChange : M unit := navigateRight.

(** [doShowPreviousChange()], lines 203-206. *)
Definition doShowPreviousChange : M unit := navigateLeft.

(** [handleListEnter()], lines 319-321. *)
Definition handleListEnter : M unit := openSelected.

(** The listener that [init()] registers on [gitWatcher.onGitEvent], lines
    66-70. *)
Definition onGitEvent : M unit :=
  w <- this ;;
  match options w with
  | Some o => setContent o
  | None => ret tt
  end.

(** The listener that [init()] registers on [labelProvider.onDidChange],
    lines 71-76; [affects] is [event.affects]. *)
Definition onDidChangeLabel (affects : URI -> bool) : M unit :=
  w <- this ;;
  let affectsFiles :=
    existsb (fun node => affects (new_URI (uri node))) (fileChangeNodes w) in
  match options w with
  | Some o => if affectsFiles then setContent o else ret tt
  | None => ret tt
  end.

End Methods.

(** ** The revision shown in the header *)

(** [renderRevision()], lines 179-187: the text after "revision: ", [None]
    for [null].  [!this.fromRevision] also holds of the empty string and
    of 0. *)
Definition renderRevision (o : DiffOptions) : option string :=
  match fromRevision o with
  | None => None
  | Some (RevString s) => if String.eqb s EmptyString then None else Some s
  | Some (RevNumber n) =>
      if N.eqb n 0 then None
      else Some ((if Js.truthy (toRevision o)
                  then Js.to_string (toRevision o) else "HEAD")
                 ++ "~" ++ Js.number_to_string n)
  end.

(** ** What navigation keeps *)

(** The selection is -1 or an index of [gitNodes]. *)
Definition selection_in_range (w : Widget) : Prop :=
  -1 <= selectedIndex w < Z.of_nat (length (gitNodes w)).

(** [w'] holds the lists and the options of [w]. *)
Definition same_content (w w' : Widget) : Prop :=
  fileChangeNodes w' = fileChangeNodes w /\
  gitNodes w' = gitNodes w /\
  options w' = options w.

(** From [w] to [w'] the lists and the options are kept, a selection inside
    the list stays inside it, and at most [n] requests were sent, none of
    them to the version-control client. *)
Definition navigation_frame (n : nat) (w w' : Widget) : Prop :=
  same_content w w' /\
  (selection_in_range w -> selection_in_range w') /\
  exists rs : list Request,
    requests w' = (requests w ++ rs)%list /\
    (length rs <= n)%nat /\
    filter is_GitDiff rs = [].

(** As [navigation_frame], with the repaint requests left aside: at most
    [n] of the requests sent are other than [update()]. *)
Definition navigation_keeps (n : nat) (w w' : Widget) : Prop :=
  same_content w w' /\
  (selection_in_range w -> selection_in_range w') /\
  exists rs : list Request,
    requests w' = (requests w ++ rs)%list /\
    (length (apart_from_updates rs) <= n)%nat /\
    filter is_GitDiff rs = [].

(** ** Concrete collaborators and inputs *)

Module Sample.

(** A small URI library to evaluate the methods with: a string is taken
    as the path of a [file] URI, and [withScheme] and [withQuery] replace
    the component they name. *)
Definition uris : UriLibrary := {|
  new_URI := fun s => mkURI "file" EmptyString s EmptyString EmptyString;
  URI_toString := fun u => path u;
  withScheme := fun s u => mkURI s (authority u) (path u) (query u) (fragment u);
  withQuery := fun q u => mkURI (scheme u) (authority u) (path u) q (fragment u);
  DiffUris_encode := fun l r =>
    mkURI "diff" EmptyString EmptyString
          (path l ++ "?" ++ query l ++ "|" ++ path r ++ "?" ++ query r)
          EmptyString;
  GIT_RESOURCE_SCHEME := "gitrev"
|}.

(** A client whose diff of any range is one modified file. *)
Definition one_change : Git := {|
  git_diff := fun _ _ _ => [mkChange "c.txt" None Modified]
|}.

Definition repo : Repository := mkRepository "file:///work".

Definition with_repository : RepositoryProvider := {|
  findRepositoryOrSelected := fun _ => Some repo
|}.

Definition without_repository : RepositoryProvider := {|
  findRepositoryOrSelected := fun _ => None
|}.

(** An editor manager with no editor open, whose open requests yield a
    widget. *)
Definition nothing_open : EditorManager := {|
  getByUri := fun _ => None;
  editorManager_open := fun u _ => Some (mkEditorWidget (path u))
|}.

(** An editor manager with an editor open on every URI. *)
Definition all_open : EditorManager := {|
  getByUri := fun u => Some (mkEditorWidget (path u));
  editorManager_open := fun u _ => Some (mkEditorWidget (path u))
|}.

(** Navigators with no hunk to move to. *)
Definition exhausted : DiffNavigators := {|
  diffNavigatorProvider := fun _ => mkDiffNavigator true false false
|}.

Definition a_txt : GitFileChange := mkChange "a.txt" None Modified.
Definition b_txt : GitFileChange := mkChange "b.txt" None Modified.
Definition added : GitFileChange := mkChange "n.txt" None New.
Definition deleted : GitFileChange := mkChange "d.txt" None Deleted.
Definition renamed : GitFileChange := mkChange "b.txt" (Some "a.txt") Renamed.

(** [{ range: { fromRevision: 3 } }]. *)
Definition three_back : DiffOptions :=
  mkOptions None (Some (mkRange (Some (RevNumber 3)) None)).

(** [{ range: { toRevision: 'abc123' } }]. *)
Definition at_abc123 : DiffOptions :=
  mkOptions None (Some (mkRange None (Some "abc123"))).

(** [{ range: { fromRevision: 'v1', toRevision: 'abc123' } }]. *)
Definition v1_to_abc123 : DiffOptions :=
  mkOptions None (Some (mkRange (Some (RevString "v1")) (Some "abc123"))).

(** [{}]: the working tree against its parent. *)
Definition no_range : DiffOptions := mkOptions None None.

(** A widget that shows two files, with nothing selected. *)
Definition two_files : Widget :=
  mkWidget [a_txt; b_txt] (Some at_abc123) [a_txt; b_txt] (-1) [].

(** The same widget with the second file selected. *)
Definition second_selected : Widget :=
  mkWidget [a_txt; b_txt] (Some at_abc123) [a_txt; b_txt] 1 [].

(** A freshly constructed widget. *)
Definition fresh : Widget := mkWidget [] None [] (-1) [].

(** Navigators with a hunk on either side. *)
Definition between_hunks : DiffNavigators := {|
  diffNavigatorProvider := fun _ => mkDiffNavigator true true true
|}.

(** The two files with the first one selected. *)
Definition first_selected : Widget :=
  mkWidget [a_txt; b_txt] (Some at_abc123) [a_txt; b_txt] 0 [].

(** The two files restored into a widget that never had options. *)
Definition inactive : Widget :=
  mkWidget [a_txt; b_txt] None [a_txt; b_txt] 0 [].

(** An active widget whose diff is empty. *)
Definition no_files : Widget := mkWidget [] (Some at_abc123) [] (-1) [].

(** [{ range: { fromRevision: 0, toRevision: 'abc123' } }]. *)
Definition zero_back : DiffOptions :=
  mkOptions None (Some (mkRange (Some (RevNumber 0)) (Some "abc123"))).

(** [{ range: { fromRevision: 2, toRevision: 'abc123' } }]. *)
Definition two_back_of_abc123 : DiffOptions :=
  mkOptions None (Some (mkRange (Some (RevNumber 2)) (Some "abc123"))).

End Sample.

(** * Properties *)

Unset Implicit Arguments.

(** A comparison of the source that holds by linear arithmetic. *)
Ltac test_holds t :=
  replace t with true
    by (symmetry; first [apply Z.leb_le | apply Z.ltb_lt | apply Z.eqb_eq]; lia).

(** ** The revision URI resolver *)

Section ResolverFacts.

Context {lib : UriLibrary}.

Lemma truthy_nonempty (s : string) : s <> EmptyString -> Js.truthy (Some s) = true.
Proof.
  intros Hs. unfold Js.truthy.
  destruct (String.eqb_spec s EmptyString); [contradiction | reflexivity].
Qed.

(** C1: with [toRevision] absent, the query attached to [fromURI] is built
    on the word "undefined", not on "HEAD": "undefined~N" for the number N
    and "undefined~1" when [fromRevision] is absent too. *)
Theorem fromURI_query_without_toRevision (o : DiffOptions) (change : GitFileChange) :
  toRevision o = None ->
  (forall n, fromRevision o = Some (RevNumber n) ->
     fromURI o change =
     withQuery ("undefined~" ++ Js.number_to_string n)
               (withScheme GIT_RESOURCE_SCHEME (fromURI_base change))) /\
  (fromRevision o = None ->
     fromURI o change =
     withQuery "undefined~1"
               (withScheme GIT_RESOURCE_SCHEME (fromURI_base change))).
Proof.
  intros Hto. unfold fromURI, fromQuery. rewrite Hto.
  split.
  - intros n Hn. rewrite Hn. reflexivity.
  - intros Hn. rewrite Hn. reflexivity.
Qed.

(** The header row of the same widget does fall back on "HEAD". *)
Lemma renderRevision_without_toRevision (o : DiffOptions) (n : N) :
  toRevision o = None -> fromRevision o = Some (RevNumber n) -> n <> 0%N ->
  renderRevision o = Some ("HEAD~" ++ Js.number_to_string n).
Proof.
  intros Hto Hfrom Hn. unfold renderRevision. rewrite Hfrom, Hto.
  destruct (N.eqb_spec n 0); [contradiction | reflexivity].
Qed.

(** C5: with [toRevision] present, a [fromRevision] that is a string is
    itself the query attached to [fromURI]; with [fromRevision] absent the
    query is [toRevision] followed by "~1", so "abc123~1" for "abc123". *)
Theorem fromURI_query_with_toRevision (o : DiffOptions) (change : GitFileChange)
        (t : string) :
  toRevision o = Some t ->
  (forall s, fromRevision o = Some (RevString s) ->
     fromURI o change =
     withQuery s (withScheme GIT_RESOURCE_SCHEME (fromURI_base change))) /\
  (fromRevision o = None ->
     fromURI o change =
     withQuery (t ++ "~1") (withScheme GIT_RESOURCE_SCHEME (fromURI_base change))) /\
  (fromRevision o = None -> t = "abc123" ->
     fromURI o change =
     withQuery "abc123~1" (withScheme GIT_RESOURCE_SCHEME (fromURI_base change))).
Proof.
  intros Hto. unfold fromURI, fromQuery. rewrite Hto.
  split; [ | split ].
  - intros s Hs. rewrite Hs. reflexivity.
  - intros Hn. rewrite Hn. reflexivity.
  - intros Hn Ht. rewrite Hn, Ht. reflexivity.
Qed.

(** C6: [fromURI] is built from [oldUri] when the entry has one and from its
    own [uri] otherwise; [toURI] is built from the entry's own [uri], with
    the git resource scheme and [toRevision] as query when there is a
    [toRevision], and is the plain URI otherwise.  (Presence is tested by
    truthiness, so the identifiers are taken non-empty.) *)
Theorem fromURI_toURI_sources (o : DiffOptions) (change : GitFileChange) :
  (forall s, oldUri change = Some s -> s <> EmptyString ->
     fromURI o change =
     withQuery (fromQuery o) (withScheme GIT_RESOURCE_SCHEME (new_URI s))) /\
  (oldUri change = None ->
     fromURI o change =
     withQuery (fromQuery o) (withScheme GIT_RESOURCE_SCHEME (new_URI (uri change)))) /\
  (forall t, toRevision o = Some t -> t <> EmptyString ->
     toURI o change =
     withQuery t (withScheme GIT_RESOURCE_SCHEME (new_URI (uri change)))) /\
  (toRevision o = None -> toURI o change = new_URI (uri change)) /\
  (oldUri change = Some "a.txt" -> uri change = "b.txt" ->
     fromURI_base change = new_URI "a.txt" /\
     (toURI o change = new_URI "b.txt" \/
      toURI o change =
      withQuery (Js.to_string (toRevision o))
                (withScheme GIT_RESOURCE_SCHEME (new_URI "b.txt")))).
Proof.
  unfold fromURI, toURI, fromURI_base.
  split; [ | split; [ | split; [ | split ] ] ].
  - intros s Hs Hne. rewrite Hs, (truthy_nonempty s Hne). reflexivity.
  - intros Hs. rewrite Hs. reflexivity.
  - intros t Ht Hne. rewrite Ht, (truthy_nonempty t Hne). reflexivity.
  - intros Ht. rewrite Ht. reflexivity.
  - intros Hold Hown. rewrite Hold, Hown. split; [reflexivity | ].
    destruct (Js.truthy (toRevision o)); [right | left]; reflexivity.
Qed.

(** An empty [oldUri] or [toRevision] counts as none. *)
Lemma empty_identifiers_count_as_absent (o : DiffOptions) (change : GitFileChange) :
  (oldUri change = Some EmptyString -> fromURI_base change = new_URI (uri change)) /\
  (toRevision o = Some EmptyString -> toURI o change = new_URI (uri change)).
Proof.
  unfold fromURI_base, toURI. split; intros H; rewrite H; reflexivity.
Qed.

End ResolverFacts.

(** Witness of [fromURI_query_without_toRevision]: [fromRevision] = 3 and
    no [toRevision] give the query "undefined~3". *)
Lemma fromURI_query_without_toRevision_witness :
  toRevision Sample.three_back = None /\
  fromRevision Sample.three_back = Some (RevNumber 3) /\
  fromURI (lib := Sample.uris) Sample.three_back Sample.a_txt =
    mkURI "gitrev" EmptyString "a.txt" "undefined~3" EmptyString.
Proof.
  split; [reflexivity | split; [reflexivity | ] ].
  rewrite (proj1 (@fromURI_query_without_toRevision Sample.uris Sample.three_back
                    Sample.a_txt eq_refl) 3%N eq_refl).
  reflexivity.
Defined.

(** At that input the header shows "HEAD~3" while the URI asks for
    "undefined~3". *)
Example header_and_query_disagree :
  renderRevision Sample.three_back = Some "HEAD~3" /\
  query (fromURI (lib := Sample.uris) Sample.three_back Sample.a_txt) = "undefined~3" /\
  query (fromURI (lib := Sample.uris) Sample.no_range Sample.a_txt) = "undefined~1".
Proof. repeat split. Qed.

(** Witness of [fromURI_query_with_toRevision]. *)
Lemma fromURI_query_with_toRevision_witness :
  toRevision Sample.v1_to_abc123 = Some "abc123" /\
  fromURI (lib := Sample.uris) Sample.v1_to_abc123 Sample.a_txt =
    mkURI "gitrev" EmptyString "a.txt" "v1" EmptyString /\
  fromURI (lib := Sample.uris) Sample.at_abc123 Sample.a_txt =
    mkURI "gitrev" EmptyString "a.txt" "abc123~1" EmptyString.
Proof.
  split; [reflexivity | split].
  - rewrite (proj1 (@fromURI_query_with_toRevision Sample.uris Sample.v1_to_abc123
                      Sample.a_txt "abc123" eq_refl) "v1" eq_refl).
    reflexivity.
  - rewrite (proj2 (proj2 (@fromURI_query_with_toRevision Sample.uris
                             Sample.at_abc123 Sample.a_txt "abc123" eq_refl))
                   eq_refl eq_refl).
    reflexivity.
Defined.

(** Witness of [fromURI_toURI_sources]: the rename of a.txt into b.txt at
    revision abc123. *)
Lemma fromURI_toURI_sources_witness :
  path (fromURI (lib := Sample.uris) Sample.at_abc123 Sample.renamed) = "a.txt" /\
  toURI (lib := Sample.uris) Sample.at_abc123 Sample.renamed =
  mkURI "gitrev" EmptyString "b.txt" "abc123" EmptyString /\
  toURI (lib := Sample.uris) Sample.no_range Sample.renamed =
  mkURI "file" EmptyString "b.txt" EmptyString EmptyString.
Proof.
  pose proof (@fromURI_toURI_sources Sample.uris Sample.at_abc123 Sample.renamed)
    as (Hold & _ & Hto & _ & _).
  pose proof (@fromURI_toURI_sources Sample.uris Sample.no_range Sample.renamed)
    as (_ & _ & _ & Hplain & _).
  split; [ | split ].
  - rewrite (Hold "a.txt" eq_refl); [reflexivity | discriminate].
  - rewrite (Hto "abc123" eq_refl); [reflexivity | discriminate].
  - rewrite (Hplain eq_refl). reflexivity.
Defined.

(** ** Content of the widget *)

Section ContentFacts.

Context {lib : UriLibrary} {git : Git} {repositoryProvider : RepositoryProvider}
        {editorManager : EditorManager} {navigators : DiffNavigators}.

Lemma getUriToOpen_active (w : Widget) (o : DiffOptions) (change : GitFileChange) :
  options w = Some o ->
  getUriToOpen change w = (Returned (uriToOpen o change), w).
Proof.
  intros Ho. unfold getUriToOpen, bind, this. rewrite Ho. reflexivity.
Qed.

Lemma getUriToOpen_inactive (w : Widget) (change : GitFileChange) :
  options w = None -> getUriToOpen change w = (Thrown, w).
Proof.
  intros Ho. unfold getUriToOpen, bind, this. rewrite Ho. reflexivity.
Qed.

(** C4: [getUriToOpen] returns [fromURI] alone for a deleted entry, [toURI]
    alone for an added one, and the diff URI that encodes the pair
    [fromURI], [toURI] for every other status. *)
Theorem getUriToOpen_by_status (w : Widget) (o : DiffOptions) (change : GitFileChange) :
  options w = Some o ->
  (status change = Deleted ->
     getUriToOpen change w = (Returned (fromURI o change), w)) /\
  (status change = New ->
     getUriToOpen change w = (Returned (toURI o change), w)) /\
  (status change <> Deleted -> status change <> New ->
     getUriToOpen change w =
     (Returned (DiffUris_encode (fromURI o change) (toURI o change)), w)).
Proof.
  intros Ho. rewrite (getUriToOpen_active w o change Ho). unfold uriToOpen.
  split; [ | split ].
  - intros Hs. rewrite Hs. reflexivity.
  - intros Hs. rewrite Hs. reflexivity.
  - intros Hd Hn. destruct (status change); try reflexivity; contradiction.
Qed.

(** What [setContent] leaves behind when a repository is found. *)
Lemma setContent_with_repository (w : Widget) (o : DiffOptions) (r : Repository) :
  findRepositoryOrSelected o = Some r ->
  setContent o w =
  (Returned tt,
   mkWidget (git_diff r (options_range o) (options_uri o)) (Some o)
            (gitNodes w) (selectedIndex w)
            ((requests w ++ [GitDiff r (options_range o) (options_uri o)])
               ++ [Update])).
Proof.
  intros Hr. unfold setContent, bind. cbn. rewrite Hr. reflexivity.
Qed.

(** What [setContent] leaves behind when there is no repository. *)
Lemma setContent_without_repository (w : Widget) (o : DiffOptions) :
  findRepositoryOrSelected o = None ->
  setContent o w =
  (Returned tt,
   mkWidget (fileChangeNodes w) (Some o) (gitNodes w) (selectedIndex w)
            (requests w)).
Proof.
  intros Hr. unfold setContent, bind. cbn. rewrite Hr. reflexivity.
Qed.

Lemma sent_app {A} (m : M A) (w : Widget) (rs : list Request) :
  requests (exec m w) = (requests w ++ rs)%list -> sent m w = rs.
Proof.
  intros H. unfold sent. rewrite H.
  rewrite skipn_app, skipn_all, Nat.sub_diag. reflexivity.
Qed.

(** C7, as the code has it: [setContent] always makes the new options the
    active ones; when a repository is found for them it asks the client for
    exactly one diff and replaces the list by the answer; when none is
    found it asks for nothing and keeps the list it had. *)
Theorem setContent_refetch (w : Widget) (o : DiffOptions) :
  options (exec (setContent o) w) = Some o /\
  (forall r, findRepositoryOrSelected o = Some r ->
     fileChangeNodes (exec (setContent o) w) =
       git_diff r (options_range o) (options_uri o) /\
     filter is_GitDiff (sent (setContent o) w) =
       [GitDiff r (options_range o) (options_uri o)]) /\
  (findRepositoryOrSelected o = None ->
     fileChangeNodes (exec (setContent o) w) = fileChangeNodes w /\
     sent (setContent o) w = []).
Proof.
  split; [ | split ].
  - unfold exec. destruct (findRepositoryOrSelected o) as [r | ] eqn:Hr.
    + rewrite (setContent_with_repository w o r Hr). reflexivity.
    + rewrite (setContent_without_repository w o Hr). reflexivity.
  - intros r Hr. split.
    + unfold exec. rewrite (setContent_with_repository w o r Hr). reflexivity.
    + rewrite (sent_app (setContent o) w
                 [GitDiff r (options_range o) (options_uri o); Update]).
      * reflexivity.
      * unfold exec. rewrite (setContent_with_repository w o r Hr). cbn.
        rewrite <- app_assoc. reflexivity.
  - intros Hr. split.
    + unfold exec. rewrite (setContent_without_repository w o Hr). reflexivity.
    + apply sent_app. unfold exec.
      rewrite (setContent_without_repository w o Hr). cbn.
      rewrite app_nil_r. reflexivity.
Qed.

(** C10: restoring what [storeState] returned installs the stored list and
    the stored options, whatever the widget held in between, and sends the
    host a repaint request and nothing to the version-control client. *)
Theorem restoreState_storeState (w w' : Widget) (st : StoredState) :
  completion storeState w = Returned st ->
  fileChangeNodes (exec (restoreState st) w') = fileChangeNodes w /\
  options (exec (restoreState st) w') = options w /\
  exec storeState w = w /\
  sent (restoreState st) w' = [Update] /\
  filter is_GitDiff (sent (restoreState st) w') = [].
Proof.
  intros Hst. unfold completion, storeState, bind, this, ret in Hst.
  cbn in Hst. injection Hst as Hst. subst st.
  assert (Hsent : sent (restoreState (mkStored (fileChangeNodes w) (options w))) w'
                  = [Update]) by (apply sent_app; reflexivity).
  rewrite Hsent. repeat split; reflexivity.
Qed.

(** [openChange] asks the editor manager for exactly one editor. *)
Lemma openChange_active (w : Widget) (o : DiffOptions) (change : GitFileChange)
      (opts : option EditorOpenerOptions) :
  options w = Some o ->
  openChange change opts w =
  (Returned (editorManager_open (uriToOpen o change) opts),
   mkWidget (fileChangeNodes w) (options w) (gitNodes w) (selectedIndex w)
            (requests w ++ [EditorOpen (uriToOpen o change) opts])).
Proof.
  intros Ho. unfold openChange, bind. rewrite (getUriToOpen_active w o change Ho).
  reflexivity.
Qed.

(** C9: [openChanges] returns [undefined] and leaves the widget and its
    requests as they were when no entry of the list has the URI's string;
    otherwise it is [openChange] on the first entry that has it. *)
Theorem openChanges_first_match (w : Widget) (u : URI)
        (opts : option EditorOpenerOptions) :
  ((forall n, In n (fileChangeNodes w) -> uri n <> URI_toString u) ->
     openChanges u opts w = (Returned None, w)) /\
  (forall before change after,
     fileChangeNodes w = (before ++ change :: after)%list ->
     (forall n, In n before -> uri n <> URI_toString u) ->
     uri change = URI_toString u ->
     openChanges u opts w = openChange change opts w).
Proof.
  split.
  - intros Hnone. unfold openChanges, bind, this.
    cbn. destruct (find (fun n => String.eqb (uri n) (URI_toString u))
                        (fileChangeNodes w)) as [c | ] eqn:Hf; [ | reflexivity].
    apply find_some in Hf. destruct Hf as [Hin Heq].
    apply String.eqb_eq in Heq. exfalso. exact (Hnone c Hin Heq).
  - intros before change after Hlist Hbefore Hchange.
    unfold openChanges, bind, this. rewrite Hlist.
    assert (Hfind : find (fun n => String.eqb (uri n) (URI_toString u))
                         (before ++ change :: after)%list = Some change).
    { clear Hlist. induction before as [ | b before IH]; cbn.
      - rewrite Hchange, String.eqb_refl. reflexivity.
      - destruct (String.eqb_spec (uri b) (URI_toString u)) as [Hb | _].
        + exfalso. apply (Hbefore b); [left; reflexivity | exact Hb].
        + apply IH. intros n Hn. apply Hbefore. right. exact Hn. }
    rewrite Hfind. reflexivity.
Qed.

End ContentFacts.

(** ** Selection and navigation *)

Section NavigationFacts.

Context {lib : UriLibrary} {git : Git} {repositoryProvider : RepositoryProvider}
        {editorManager : EditorManager} {navigators : DiffNavigators}.

Lemma selectNodeAt_in_range (k : Z) (w : Widget) :
  0 <= k < Z.of_nat (length (gitNodes w)) ->
  selectNodeAt k w = set_selectedIndex k w.
Proof.
  intros Hk. unfold selectNodeAt, bind, this.
  replace ((0 <=? k) && (k <? Z.of_nat (length (gitNodes w)))) with true.
  - reflexivity.
  - symmetry. apply andb_true_iff. split; [apply Z.leb_le | apply Z.ltb_lt]; lia.
Qed.

Lemma selectNextNode_in_range (w : Widget) :
  0 <= selectedIndex w < Z.of_nat (length (gitNodes w)) ->
  selectNextNode w =
  set_selectedIndex
    (if selectedIndex w <? Z.of_nat (length (gitNodes w)) - 1
     then selectedIndex w + 1 else 0) w.
Proof.
  intros Hi. unfold selectNextNode, indexOfSelected, bind, this, ret.
  cbn beta iota.
  destruct (Z.ltb_spec (selectedIndex w) (Z.of_nat (length (gitNodes w)) - 1))
    as [Hlt | Hge].
  - test_holds (0 <=? selectedIndex w).
    cbn [andb orb]. apply selectNodeAt_in_range. lia.
  - test_holds (0 <=? selectedIndex w).
    test_holds (0 <? Z.of_nat (length (gitNodes w))).
    test_holds (selectedIndex w =? Z.of_nat (length (gitNodes w)) - 1).
    rewrite orb_true_r. cbn [andb orb]. apply selectNodeAt_in_range. lia.
Qed.

Lemma selectNextNode_unset (w : Widget) :
  selectedIndex w = -1 -> gitNodes w <> [] ->
  selectNextNode w = set_selectedIndex 0 w.
Proof.
  intros Hi Hne. unfold selectNextNode, indexOfSelected, bind, this, ret.
  cbn beta iota. rewrite Hi.
  assert (Hlen : 0 < Z.of_nat (length (gitNodes w))).
  { destruct (gitNodes w); [contradiction | cbn; lia]. }
  test_holds (0 <? Z.of_nat (length (gitNodes w))).
  cbn [andb orb]. apply selectNodeAt_in_range. lia.
Qed.

Lemma selectPreviousNode_in_range (w : Widget) :
  0 <= selectedIndex w < Z.of_nat (length (gitNodes w)) ->
  selectPreviousNode w =
  set_selectedIndex
    (if 0 <? selectedIndex w
     then selectedIndex w - 1 else Z.of_nat (length (gitNodes w)) - 1) w.
Proof.
  intros Hi. unfold selectPreviousNode, indexOfSelected, bind, this, ret.
  cbn beta iota.
  destruct (Z.ltb_spec 0 (selectedIndex w)) as [Hlt | Hge].
  - apply selectNodeAt_in_range. lia.
  - test_holds (selectedIndex w =? 0).
    apply selectNodeAt_in_range. lia.
Qed.

Lemma selectPreviousNode_unset (w : Widget) :
  selectedIndex w = -1 -> selectPreviousNode w = (Returned tt, w).
Proof.
  intros Hi. unfold selectPreviousNode, indexOfSelected, bind, this, ret.
  cbn beta iota. rewrite Hi. reflexivity.
Qed.

(** C3: from a selected index [i] of the list, [selectNextNode] followed by
    [selectPreviousNode] ends on [i] again and leaves the widget as it was;
    from the last index the first step goes to 0 and the second comes back
    to the last index. *)
Theorem selectNext_then_selectPrevious (w : Widget) (i : Z) :
  0 <= i < Z.of_nat (length (gitNodes w)) ->
  selectedIndex w = i ->
  (selectNextNode ;;; selectPreviousNode) w = (Returned tt, w) /\
  selectedIndex (exec (selectNextNode ;;; selectPreviousNode) w) = i /\
  (i < Z.of_nat (length (gitNodes w)) - 1 ->
     selectedIndex (exec selectNextNode w) = i + 1) /\
  (i = Z.of_nat (length (gitNodes w)) - 1 ->
     selectedIndex (exec selectNextNode w) = 0).
Proof.
  intros Hi Hsel. subst i.
  assert (Hnext := selectNextNode_in_range w Hi).
  assert (Hround : (selectNextNode ;;; selectPreviousNode) w = (Returned tt, w)).
  { unfold bind. rewrite Hnext. unfold set_selectedIndex at 1.
    rewrite selectPreviousNode_in_range.
    - unfold set_selectedIndex. cbn.
      destruct w as [fs os gs i rs]. cbn in *. f_equal. f_equal.
      destruct (Z.ltb_spec i (Z.of_nat (length gs) - 1)).
      + test_holds (0 <? i + 1). lia.
      + cbn. lia.
    - cbn. destruct (Z.ltb_spec (selectedIndex w)
                                (Z.of_nat (length (gitNodes w)) - 1)); lia. }
  split; [exact Hround | ]. split; [ | split ].
  - unfold exec. rewrite Hround. reflexivity.
  - intros Hlt. unfold exec. rewrite Hnext. cbn.
    destruct (Z.ltb_spec (selectedIndex w) (Z.of_nat (length (gitNodes w)) - 1)); lia.
  - intros Hlast. unfold exec. rewrite Hnext. cbn.
    destruct (Z.ltb_spec (selectedIndex w) (Z.of_nat (length (gitNodes w)) - 1)); lia.
Qed.

Lemma getSelected_unset (w : Widget) :
  selectedIndex w = -1 -> getSelected w = (Returned None, w).
Proof.
  intros Hi. unfold getSelected, bind, this, ret. rewrite Hi. reflexivity.
Qed.

Lemma getSelected_in_range (w : Widget) :
  0 <= selectedIndex w < Z.of_nat (length (gitNodes w)) ->
  exists change,
    In change (gitNodes w) /\ getSelected w = (Returned (Some change), w).
Proof.
  intros Hi. unfold getSelected, bind, this, ret.
  replace (selectedIndex w <? 0) with false by (symmetry; apply Z.ltb_ge; lia).
  destruct (nth_error (gitNodes w) (Z.to_nat (selectedIndex w)))
    as [change | ] eqn:Hnth.
  - exists change. split; [ | reflexivity].
    apply nth_error_In with (n := Z.to_nat (selectedIndex w)). exact Hnth.
  - apply nth_error_None in Hnth. lia.
Qed.

Lemma revealChange_active (w : Widget) (o : DiffOptions) (change : GitFileChange) :
  options w = Some o ->
  revealChange change w =
  (Returned tt,
   mkWidget (fileChangeNodes w) (options w) (gitNodes w) (selectedIndex w)
            (requests w ++ [EditorOpen (uriToOpen o change)
                                       (Some (mkOpenerOptions "reveal"))])).
Proof.
  intros Ho. unfold revealChange, bind.
  rewrite (openChange_active w o change _ Ho). reflexivity.
Qed.

(** [openSelected] on a selected entry sends one open request and leaves
    the list, the options and the selection alone. *)
Lemma openSelected_frame (w : Widget) (o : DiffOptions) :
  options w = Some o ->
  0 <= selectedIndex w < Z.of_nat (length (gitNodes w)) ->
  completion openSelected w = Returned tt /\
  selectedIndex (exec openSelected w) = selectedIndex w /\
  gitNodes (exec openSelected w) = gitNodes w /\
  options (exec openSelected w) = options w.
Proof.
  intros Ho Hi. destruct (getSelected_in_range w Hi) as (change & _ & Hsel).
  unfold completion, exec, openSelected, bind. rewrite Hsel.
  unfold unawaited. rewrite (revealChange_active w o change Ho). cbn. auto.
Qed.

(** With nothing selected, [navigateRight] selects the first entry of a
    non-empty list and opens it. *)
Lemma navigateRight_seeds (w : Widget) (o : DiffOptions) :
  options w = Some o -> selectedIndex w = -1 -> gitNodes w <> [] ->
  completion navigateRight w = Returned tt /\
  selectedIndex (exec navigateRight w) = 0 /\
  gitNodes (exec navigateRight w) = gitNodes w /\
  options (exec navigateRight w) = options w.
Proof.
  intros Ho Hi Hne.
  assert (Hlen : 0 < Z.of_nat (length (gitNodes w))).
  { destruct (gitNodes w); [contradiction | cbn; lia]. }
  set (w0 := mkWidget (fileChangeNodes w) (options w) (gitNodes w) 0 (requests w)).
  assert (Heq : navigateRight w = openSelected w0).
  { unfold navigateRight.
    unfold bind at 1. rewrite (getSelected_unset w Hi).
    cbn [narrowed GitFileChangeNode_is].
    unfold bind at 1. unfold this at 1.
    test_holds (0 <? Z.of_nat (length (gitNodes w))).
    unfold bind. rewrite (selectNodeAt_in_range 0 w) by lia. reflexivity. }
  unfold completion, exec. rewrite Heq.
  apply (openSelected_frame w0 o Ho). cbn. lia.
Qed.

(** With an entry selected whose editor is open and has no further hunk,
    [navigateRight] selects the next entry, the first after the last. *)
Lemma navigateRight_advances (w : Widget) (o : DiffOptions) :
  options w = Some o ->
  0 <= selectedIndex w < Z.of_nat (length (gitNodes w)) ->
  (forall change, In change (gitNodes w) ->
     exists widget,
       getByUri (uriToOpen o change) = Some widget /\
       canNavigate (diffNavigatorProvider (editor widget))
         && hasNext (diffNavigatorProvider (editor widget)) = false) ->
  completion navigateRight w = Returned tt /\
  selectedIndex (exec navigateRight w) =
    (selectedIndex w + 1) mod Z.of_nat (length (gitNodes w)) /\
  gitNodes (exec navigateRight w) = gitNodes w /\
  options (exec navigateRight w) = options w.
Proof.
  intros Ho Hi Hopen.
  destruct (getSelected_in_range w Hi) as (change & Hin & Hsel).
  destruct (Hopen change Hin) as (widget & Hget & Hnav).
  set (k := if selectedIndex w <? Z.of_nat (length (gitNodes w)) - 1
            then selectedIndex w + 1 else 0).
  assert (Hk : k = (selectedIndex w + 1) mod Z.of_nat (length (gitNodes w))).
  { subst k.
    destruct (Z.ltb_spec (selectedIndex w) (Z.of_nat (length (gitNodes w)) - 1)).
    - rewrite Z.mod_small; lia.
    - replace (selectedIndex w + 1) with (Z.of_nat (length (gitNodes w))) by lia.
      rewrite Z.mod_same; lia. }
  set (w0 := mkWidget (fileChangeNodes w) (options w) (gitNodes w) k (requests w)).
  assert (Heq : navigateRight w = unawaited openSelected w0).
  { unfold navigateRight.
    unfold bind at 1. rewrite Hsel. cbn [narrowed GitFileChangeNode_is].
    unfold bind at 1. rewrite (getUriToOpen_active w o change Ho).
    rewrite Hget, Hnav.
    unfold unawaited, bind. rewrite (selectNextNode_in_range w Hi).
    reflexivity. }
  destruct (openSelected_frame w0 o Ho) as (_ & Hs & Hg & Hopt).
  { cbn. rewrite Hk. apply Z.mod_pos_bound. lia. }
  unfold completion, exec in *. rewrite Heq, <- Hk. unfold unawaited.
  cbn [fst snd]. auto.
Qed.

Lemma widget_eta (w : Widget) :
  mkWidget (fileChangeNodes w) (options w) (gitNodes w) (selectedIndex w)
           (requests w) = w.
Proof. destruct w; reflexivity. Qed.

Lemma getSelected_at (w : Widget) (change : GitFileChange) :
  0 <= selectedIndex w ->
  nth_error (gitNodes w) (Z.to_nat (selectedIndex w)) = Some change ->
  getSelected w = (Returned (Some change), w).
Proof.
  intros Hi Hnth. unfold getSelected, bind, this, ret.
  replace (selectedIndex w <? 0) with false by (symmetry; apply Z.ltb_ge; lia).
  rewrite Hnth. reflexivity.
Qed.

(** [openSelected] on a selected entry sends the reveal of that entry. *)
Lemma openSelected_at (w : Widget) (o : DiffOptions) (change : GitFileChange) :
  options w = Some o ->
  0 <= selectedIndex w ->
  nth_error (gitNodes w) (Z.to_nat (selectedIndex w)) = Some change ->
  openSelected w =
  (Returned tt,
   mkWidget (fileChangeNodes w) (options w) (gitNodes w) (selectedIndex w)
            (requests w ++ [EditorOpen (uriToOpen o change)
                                       (Some (mkOpenerOptions "reveal"))])).
Proof.
  intros Ho Hi Hnth. unfold openSelected, bind.
  rewrite (getSelected_at w change Hi Hnth). unfold unawaited.
  rewrite (revealChange_active w o change Ho). reflexivity.
Qed.

(** With nothing selected, [navigateRight] selects the first entry and
    reveals it. *)
Lemma navigateRight_seeds_state (w : Widget) (o : DiffOptions)
      (first : GitFileChange) (rest : list GitFileChange) :
  options w = Some o -> selectedIndex w = -1 -> gitNodes w = first :: rest ->
  navigateRight w =
  (Returned tt,
   mkWidget (fileChangeNodes w) (options w) (gitNodes w) 0
            (requests w ++ [EditorOpen (uriToOpen o first)
                                       (Some (mkOpenerOptions "reveal"))])).
Proof.
  intros Ho Hi Hl.
  assert (Hlen : 0 < Z.of_nat (length (gitNodes w))) by (rewrite Hl; cbn; lia).
  set (w0 := mkWidget (fileChangeNodes w) (options w) (gitNodes w) 0 (requests w)).
  assert (Heq : navigateRight w = openSelected w0).
  { unfold navigateRight.
    unfold bind at 1. rewrite (getSelected_unset w Hi).
    cbn [narrowed GitFileChangeNode_is].
    unfold bind at 1. unfold this at 1.
    test_holds (0 <? Z.of_nat (length (gitNodes w))).
    unfold bind. rewrite (selectNodeAt_in_range 0 w) by lia. reflexivity. }
  rewrite Heq. apply (openSelected_at w0 o first).
  - exact Ho.
  - cbn. lia.
  - cbn. rewrite Hl. reflexivity.
Qed.

(** With an entry selected that no editor shows, [navigateRight] reveals
    that entry again and the selection stays where it is. *)
Lemma navigateRight_closed (w : Widget) (o : DiffOptions)
      (change : GitFileChange) :
  options w = Some o ->
  0 <= selectedIndex w ->
  nth_error (gitNodes w) (Z.to_nat (selectedIndex w)) = Some change ->
  getByUri (uriToOpen o change) = None ->
  navigateRight w =
  (Returned tt,
   mkWidget (fileChangeNodes w) (options w) (gitNodes w) (selectedIndex w)
            (requests w ++ [EditorOpen (uriToOpen o change)
                                       (Some (mkOpenerOptions "reveal"))])).
Proof.
  intros Ho Hi Hnth Hget.
  unfold navigateRight.
  unfold bind at 1. rewrite (getSelected_at w change Hi Hnth).
  cbn [narrowed GitFileChangeNode_is].
  unfold bind at 1. rewrite (getUriToOpen_active w o change Ho).
  rewrite Hget. unfold unawaited.
  rewrite (revealChange_active w o change Ho). reflexivity.
Qed.

Lemma run_pair {A} (m : M A) (w : Widget) :
  m w = (completion m w, exec m w).
Proof. unfold completion, exec. destruct (m w); reflexivity. Qed.

Lemma times_step (n : nat) (m : M unit) (w : Widget) :
  completion m w = Returned tt ->
  completion (times (S n) m) w = completion (times n m) (exec m w) /\
  exec (times (S n) m) w = exec (times n m) (exec m w).
Proof.
  intros Hm.
  assert (Heq : times (S n) m w = times n m (exec m w)).
  { cbn [times]. unfold bind. rewrite (run_pair m w), Hm. reflexivity. }
  split; [unfold completion | unfold exec at 1 3]; rewrite Heq; reflexivity.
Qed.

Lemma times_navigateRight_advances (k : nat) :
  forall (w : Widget) (o : DiffOptions),
  options w = Some o ->
  0 <= selectedIndex w < Z.of_nat (length (gitNodes w)) ->
  (forall change, In change (gitNodes w) ->
     exists widget,
       getByUri (uriToOpen o change) = Some widget /\
       canNavigate (diffNavigatorProvider (editor widget))
         && hasNext (diffNavigatorProvider (editor widget)) = false) ->
  completion (times k navigateRight) w = Returned tt /\
  selectedIndex (exec (times k navigateRight) w) =
    (selectedIndex w + Z.of_nat k) mod Z.of_nat (length (gitNodes w)) /\
  gitNodes (exec (times k navigateRight) w) = gitNodes w /\
  options (exec (times k navigateRight) w) = options w.
Proof.
  induction k as [ | k IH]; intros w o Ho Hi Hopen.
  - cbn. rewrite Z.add_0_r, Z.mod_small by lia. auto.
  - destruct (navigateRight_advances w o Ho Hi Hopen) as (Hc & Hs & Hg & Hopt).
    destruct (times_step k navigateRight w Hc) as [Hc1 He1].
    rewrite Hc1, He1.
    destruct (IH (exec navigateRight w) o) as (Hc' & Hs' & Hg' & Hopt').
    + rewrite Hopt. exact Ho.
    + rewrite Hs, Hg. apply Z.mod_pos_bound. lia.
    + rewrite Hg. exact Hopen.
    + split; [exact Hc' | ]. split; [ | split ].
      * rewrite Hs', Hs, Hg.
        rewrite Z.add_mod_idemp_l by lia. f_equal. lia.
      * rewrite Hg'. exact Hg.
      * rewrite Hopt'. exact Hopt.
Qed.

Lemma times_navigateRight_closed (k : nat) :
  forall (w : Widget) (o : DiffOptions) (change : GitFileChange),
  options w = Some o ->
  0 <= selectedIndex w ->
  nth_error (gitNodes w) (Z.to_nat (selectedIndex w)) = Some change ->
  getByUri (uriToOpen o change) = None ->
  times k navigateRight w =
  (Returned tt,
   mkWidget (fileChangeNodes w) (options w) (gitNodes w) (selectedIndex w)
            (requests w ++ repeat (EditorOpen (uriToOpen o change)
                                              (Some (mkOpenerOptions "reveal")))
                                  k)).
Proof.
  induction k as [ | k IH]; intros w o change Ho Hi Hnth Hget.
  - cbn [times repeat]. rewrite app_nil_r, widget_eta. reflexivity.
  - cbn [times]. unfold bind.
    rewrite (navigateRight_closed w o change Ho Hi Hnth Hget).
    match goal with
    | |- context [times k navigateRight ?w1] =>
        rewrite (IH w1 o change Ho Hi Hnth Hget)
    end.
    cbn. rewrite <- app_assoc. reflexivity.
Qed.

Lemma apart_from_updates_opens (u : URI) (opts : option EditorOpenerOptions)
      (k : nat) :
  apart_from_updates (repeat (EditorOpen u opts) k) = repeat (EditorOpen u opts) k.
Proof.
  induction k as [ | k IH]; [reflexivity | ].
  cbn. unfold apart_from_updates in IH. rewrite IH. reflexivity.
Qed.

(** C2, as the code has it: with nothing selected [navigateLeft] does
    nothing, and [navigateRight] selects index 0 of a non-empty list and
    opens that entry; when the selected entry's editor is open and has no
    further hunk, each further [navigateRight] selects the next index, so
    the calls visit 0, 1, ..., n-1 and 0 again; when no editor is open for
    the selected entry, each further [navigateRight] only reveals that
    entry once more: the selection stays at 0, the lists and the options
    are kept, and apart from repaints the requests sent are the reveals of
    entry 0, one for each call. *)
Theorem navigation_from_unset_selection (w : Widget) (o : DiffOptions)
        (first : GitFileChange) (rest : list GitFileChange) :
  gitNodes w = first :: rest -> options w = Some o -> selectedIndex w = -1 ->
  navigateLeft w = (Returned tt, w) /\
  (completion navigateRight w = Returned tt /\
   selectedIndex (exec navigateRight w) = 0 /\
   apart_from_updates (sent navigateRight w) =
     [EditorOpen (uriToOpen o first) (Some (mkOpenerOptions "reveal"))]) /\
  ((forall change, In change (gitNodes w) ->
      exists widget,
        getByUri (uriToOpen o change) = Some widget /\
        canNavigate (diffNavigatorProvider (editor widget))
          && hasNext (diffNavigatorProvider (editor widget)) = false) ->
   forall k : nat,
     completion (times (S k) navigateRight) w = Returned tt /\
     selectedIndex (exec (times (S k) navigateRight) w) =
       Z.of_nat k mod Z.of_nat (length (gitNodes w))) /\
  (getByUri (uriToOpen o first) = None ->
   forall k : nat,
     completion (times (S k) navigateRight) w = Returned tt /\
     selectedIndex (exec (times (S k) navigateRight) w) = 0 /\
     same_content w (exec (times (S k) navigateRight) w) /\
     apart_from_updates (sent (times (S k) navigateRight) w) =
       repeat (EditorOpen (uriToOpen o first) (Some (mkOpenerOptions "reveal")))
              (S k)).
Proof.
  intros Hl Ho Hi.
  assert (Hne : gitNodes w <> []) by (rewrite Hl; discriminate).
  assert (Hlen : 0 < Z.of_nat (length (gitNodes w))) by (rewrite Hl; cbn; lia).
  destruct (navigateRight_seeds w o Ho Hi Hne) as (Hc & Hs & Hg & Hopt).
  assert (Hseed := navigateRight_seeds_state w o first rest Ho Hi Hl).
  split; [ | split; [ | split ] ].
  - unfold navigateLeft, bind. rewrite (getSelected_unset w Hi). reflexivity.
  - split; [exact Hc | ]. split; [exact Hs | ].
    rewrite (sent_app navigateRight w
               [EditorOpen (uriToOpen o first) (Some (mkOpenerOptions "reveal"))]).
    + reflexivity.
    + unfold exec. rewrite Hseed. reflexivity.
  - intros Hopen k.
    destruct (times_step k navigateRight w Hc) as [Hc1 He1].
    rewrite Hc1, He1.
    destruct (times_navigateRight_advances k (exec navigateRight w) o)
      as (Hc' & Hs' & _).
    + rewrite Hopt. exact Ho.
    + rewrite Hs, Hg. lia.
    + rewrite Hg. exact Hopen.
    + split; [exact Hc' | ]. rewrite Hs', Hs, Hg. reflexivity.
  - intros Hclosed k.
    assert (Hrun : times (S k) navigateRight w =
                   (Returned tt,
                    mkWidget (fileChangeNodes w) (options w) (gitNodes w) 0
                      (requests w ++
                       repeat (EditorOpen (uriToOpen o first)
                                          (Some (mkOpenerOptions "reveal")))
                              (S k)))).
    { cbn [times]. unfold bind. rewrite Hseed.
      match goal with
      | |- context [times k navigateRight ?w1] =>
          rewrite (times_navigateRight_closed k w1 o first)
      end.
      - cbn. rewrite <- app_assoc. reflexivity.
      - exact Ho.
      - cbn. lia.
      - cbn. rewrite Hl. reflexivity.
      - exact Hclosed. }
    unfold completion, same_content.
    rewrite (sent_app (times (S k) navigateRight) w
               (repeat (EditorOpen (uriToOpen o first)
                                   (Some (mkOpenerOptions "reveal"))) (S k)));
      unfold exec; rewrite Hrun; [ | reflexivity].
    cbn [fst snd fileChangeNodes gitNodes options selectedIndex].
    rewrite apart_from_updates_opens. repeat split.
Qed.

End NavigationFacts.

(** ** The properties at concrete inputs *)

(** Witness of [getUriToOpen_by_status]: a deleted, an added and a modified
    file at revision abc123. *)
Lemma getUriToOpen_by_status_witness :
  options Sample.two_files = Some Sample.at_abc123 /\
  completion (getUriToOpen (lib := Sample.uris) Sample.deleted) Sample.two_files =
    Returned (mkURI "gitrev" EmptyString "d.txt" "abc123~1" EmptyString) /\
  completion (getUriToOpen (lib := Sample.uris) Sample.added) Sample.two_files =
    Returned (mkURI "gitrev" EmptyString "n.txt" "abc123" EmptyString) /\
  completion (getUriToOpen (lib := Sample.uris) Sample.a_txt) Sample.two_files =
    Returned (mkURI "diff" EmptyString EmptyString "a.txt?abc123~1|a.txt?abc123" EmptyString).
Proof.
  pose proof (@getUriToOpen_by_status Sample.uris Sample.two_files
                Sample.at_abc123 Sample.deleted eq_refl) as (Hd & _ & _).
  pose proof (@getUriToOpen_by_status Sample.uris Sample.two_files
                Sample.at_abc123 Sample.added eq_refl) as (_ & Hn & _).
  pose proof (@getUriToOpen_by_status Sample.uris Sample.two_files
                Sample.at_abc123 Sample.a_txt eq_refl) as (_ & _ & Hm).
  split; [reflexivity | ]. unfold completion.
  rewrite (Hd eq_refl), (Hn eq_refl), Hm; [ | discriminate | discriminate ].
  repeat split.
Defined.

(** Witness of [setContent_refetch], with a repository. *)
Lemma setContent_refetch_witness :
  fileChangeNodes
    (exec (setContent (git := Sample.one_change)
                      (repositoryProvider := Sample.with_repository)
                      Sample.three_back) Sample.two_files) =
    [mkChange "c.txt" None Modified] /\
  filter is_GitDiff
    (sent (setContent (git := Sample.one_change)
                      (repositoryProvider := Sample.with_repository)
                      Sample.three_back) Sample.two_files) =
    [GitDiff Sample.repo (Some (mkRange (Some (RevNumber 3)) None)) None].
Proof.
  exact (proj1 (proj2 (@setContent_refetch Sample.one_change Sample.with_repository
                         Sample.two_files Sample.three_back))
               Sample.repo eq_refl).
Defined.

(** C7 fails without a repository: the widget keeps the two files it held
    and the client is asked for nothing. *)
Lemma setContent_without_repository_keeps_list :
  fileChangeNodes
    (exec (setContent (git := Sample.one_change)
                      (repositoryProvider := Sample.without_repository)
                      Sample.three_back) Sample.two_files) =
    [Sample.a_txt; Sample.b_txt] /\
  length (filter is_GitDiff
            (sent (setContent (git := Sample.one_change)
                              (repositoryProvider := Sample.without_repository)
                              Sample.three_back) Sample.two_files)) <> 1%nat.
Proof. split; [reflexivity | discriminate]. Qed.

(** Witness of [restoreState_storeState]: the state of the two-file widget
    restored into a fresh one. *)
Lemma restoreState_storeState_witness :
  completion storeState Sample.two_files =
    Returned (mkStored [Sample.a_txt; Sample.b_txt] (Some Sample.at_abc123)) /\
  fileChangeNodes
    (exec (restoreState (mkStored [Sample.a_txt; Sample.b_txt]
                                  (Some Sample.at_abc123))) Sample.fresh) =
    [Sample.a_txt; Sample.b_txt] /\
  options
    (exec (restoreState (mkStored [Sample.a_txt; Sample.b_txt]
                                  (Some Sample.at_abc123))) Sample.fresh) =
    Some Sample.at_abc123.
Proof.
  split; [reflexivity | ].
  pose proof (restoreState_storeState Sample.two_files Sample.fresh
                (mkStored [Sample.a_txt; Sample.b_txt] (Some Sample.at_abc123))
                eq_refl) as (Hl & Ho & _).
  split; [exact Hl | exact Ho].
Defined.

(** Witness of [openChanges_first_match]: b.txt is the second entry, z.txt
    is none. *)
Lemma openChanges_first_match_witness :
  openChanges (lib := Sample.uris) (editorManager := Sample.nothing_open)
              (mkURI "file" EmptyString "z.txt" EmptyString EmptyString) None Sample.two_files =
    (Returned None, Sample.two_files) /\
  openChanges (lib := Sample.uris) (editorManager := Sample.nothing_open)
              (mkURI "file" EmptyString "b.txt" EmptyString EmptyString) None Sample.two_files =
    openChange (lib := Sample.uris) (editorManager := Sample.nothing_open)
               Sample.b_txt None Sample.two_files.
Proof.
  split.
  - apply (proj1 (@openChanges_first_match Sample.uris Sample.nothing_open
                    Sample.two_files (mkURI "file" EmptyString "z.txt" EmptyString EmptyString) None)).
    intros n [<- | [<- | []]]; discriminate.
  - apply (proj2 (@openChanges_first_match Sample.uris Sample.nothing_open
                    Sample.two_files (mkURI "file" EmptyString "b.txt" EmptyString EmptyString) None)
                 [Sample.a_txt] Sample.b_txt []).
    + reflexivity.
    + intros n [<- | []]. discriminate.
    + reflexivity.
Defined.

(** Witness of [selectNext_then_selectPrevious]: from the last of two
    entries. *)
Lemma selectNext_then_selectPrevious_witness :
  0 <= 1 < Z.of_nat (length (gitNodes Sample.second_selected)) /\
  selectedIndex (exec selectNextNode Sample.second_selected) = 0 /\
  selectedIndex (exec (selectNextNode ;;; selectPreviousNode)
                      Sample.second_selected) = 1.
Proof.
  assert (Hi : 0 <= 1 < Z.of_nat (length (gitNodes Sample.second_selected)))
    by (cbn; lia).
  pose proof (selectNext_then_selectPrevious Sample.second_selected 1 Hi eq_refl)
    as (_ & Hround & _ & Hwrap).
  split; [exact Hi | ]. split; [apply Hwrap; reflexivity | exact Hround].
Defined.

(** Witness of [navigation_from_unset_selection]: three calls of
    [navigateRight] on two files whose editors are open end on index 0
    again; two calls with no editor open reveal a.txt twice. *)
Lemma navigation_from_unset_selection_witness :
  navigateLeft (lib := Sample.uris) (editorManager := Sample.all_open)
               (navigators := Sample.exhausted) Sample.two_files =
    (Returned tt, Sample.two_files) /\
  selectedIndex
    (exec (times 2 (navigateRight (lib := Sample.uris)
                      (editorManager := Sample.all_open)
                      (navigators := Sample.exhausted))) Sample.two_files) = 1 /\
  selectedIndex
    (exec (times 3 (navigateRight (lib := Sample.uris)
                      (editorManager := Sample.all_open)
                      (navigators := Sample.exhausted))) Sample.two_files) = 0 /\
  apart_from_updates
    (sent (navigateRight (lib := Sample.uris)
             (editorManager := Sample.all_open)
             (navigators := Sample.exhausted)) Sample.two_files) =
    [EditorOpen (uriToOpen (lib := Sample.uris) Sample.at_abc123 Sample.a_txt)
                (Some (mkOpenerOptions "reveal"))] /\
  selectedIndex
    (exec (times 2 (navigateRight (lib := Sample.uris)
                      (editorManager := Sample.nothing_open)
                      (navigators := Sample.exhausted))) Sample.two_files) = 0 /\
  apart_from_updates
    (sent (times 2 (navigateRight (lib := Sample.uris)
                      (editorManager := Sample.nothing_open)
                      (navigators := Sample.exhausted))) Sample.two_files) =
    [EditorOpen (uriToOpen (lib := Sample.uris) Sample.at_abc123 Sample.a_txt)
                (Some (mkOpenerOptions "reveal"));
     EditorOpen (uriToOpen (lib := Sample.uris) Sample.at_abc123 Sample.a_txt)
                (Some (mkOpenerOptions "reveal"))].
Proof.
  pose proof (@navigation_from_unset_selection Sample.uris Sample.all_open
                Sample.exhausted Sample.two_files Sample.at_abc123
                Sample.a_txt [Sample.b_txt] eq_refl eq_refl eq_refl)
    as (Hleft & (_ & _ & Hseed) & Hopen & _).
  pose proof (@navigation_from_unset_selection Sample.uris Sample.nothing_open
                Sample.exhausted Sample.two_files Sample.at_abc123
                Sample.a_txt [Sample.b_txt] eq_refl eq_refl eq_refl)
    as (_ & _ & _ & Hclosed).
  assert (Hall : forall change, In change (gitNodes Sample.two_files) ->
            exists widget,
              getByUri (EditorManager := Sample.all_open)
                       (uriToOpen (lib := Sample.uris) Sample.at_abc123 change)
              = Some widget /\
              canNavigate (diffNavigatorProvider (DiffNavigators := Sample.exhausted)
                             (editor widget))
              && hasNext (diffNavigatorProvider (DiffNavigators := Sample.exhausted)
                            (editor widget)) = false).
  { intros change _. eexists. split; reflexivity. }
  destruct (Hclosed eq_refl 1%nat) as (_ & Hstay & _ & Hreveals).
  split; [exact Hleft | ].
  split; [exact (proj2 (Hopen Hall 1%nat)) | ].
  split; [exact (proj2 (Hopen Hall 2%nat)) | ].
  split; [exact Hseed | ].
  split; [exact Hstay | exact Hreveals].
Defined.

(** C2 fails with no editor open: after the first call has selected
    index 0, the second call reveals that entry and does not go to 1. *)
Lemma navigateRight_without_editor_stays :
  getByUri (EditorManager := Sample.nothing_open)
           (uriToOpen (lib := Sample.uris) Sample.at_abc123 Sample.a_txt) = None /\
  selectedIndex
    (exec (times 1 (navigateRight (lib := Sample.uris)
                      (editorManager := Sample.nothing_open)
                      (navigators := Sample.exhausted))) Sample.two_files) = 0 /\
  selectedIndex
    (exec (times 2 (navigateRight (lib := Sample.uris)
                      (editorManager := Sample.nothing_open)
                      (navigators := Sample.exhausted))) Sample.two_files) <> 1.
Proof. split; [reflexivity | split; [reflexivity | discriminate] ]. Qed.

(** * Further properties of the widget *)

(** ** Selection steps *)

Section SelectionSteps.

Context {lib : UriLibrary} {editorManager : EditorManager}
        {navigators : DiffNavigators}.

Lemma frame_keeps (n : nat) (w w' : Widget) :
  navigation_frame n w w' -> navigation_keeps n w w'.
Proof.
  intros (Hc & Hr & rs & Hq & Hl & Hd).
  split; [exact Hc | ]. split; [exact Hr | ].
  exists rs. split; [exact Hq | ]. split; [ | exact Hd].
  unfold apart_from_updates.
  pose proof (filter_length_le (fun r => negb (is_Update r)) rs). lia.
Qed.

Lemma selectNextNode_empty (w : Widget) :
  selectedIndex w = -1 -> gitNodes w = [] ->
  selectNextNode w = (Returned tt, w).
Proof.
  intros Hi Hnil. unfold selectNextNode, indexOfSelected, bind, this, ret.
  cbn beta iota. rewrite Hi, Hnil. reflexivity.
Qed.

(** X1: a selection step never leaves the list.  When the selection is -1 or
    an index of the list, [selectNextNode] and [selectPreviousNode] return
    normally, keep the lists and the options, leave a selection that is
    again -1 or an index of the list, and send nothing but, possibly,
    repaint requests. *)
Theorem select_steps_keep_selection_in_range (w : Widget) :
  selection_in_range w ->
  (completion selectNextNode w = Returned tt /\
   navigation_keeps 0 w (exec selectNextNode w)) /\
  (completion selectPreviousNode w = Returned tt /\
   navigation_keeps 0 w (exec selectPreviousNode w)).
Proof.
  intros Hr. unfold selection_in_range in Hr.
  assert (Hframe : forall k,
             -1 <= k < Z.of_nat (length (gitNodes w)) ->
             navigation_keeps 0 w (snd (set_selectedIndex k w))).
  { intros k Hk. apply frame_keeps.
    unfold navigation_frame, same_content, selection_in_range.
    cbn. repeat split; try lia.
    exists []. rewrite app_nil_r. repeat split. cbn. lia. }
  assert (Hsame : navigation_keeps 0 w w).
  { apply frame_keeps.
    unfold navigation_frame, same_content. repeat split; try tauto.
    exists []. rewrite app_nil_r. repeat split. cbn. lia. }
  destruct (Z.eq_dec (selectedIndex w) (-1)) as [Hunset | Hset].
  - split.
    + destruct (gitNodes w) as [ | c l] eqn:Hl.
      * unfold completion, exec. rewrite (selectNextNode_empty w Hunset Hl).
        split; [reflexivity | exact Hsame].
      * assert (Hne : gitNodes w <> []) by (rewrite Hl; discriminate).
        unfold completion, exec. rewrite (selectNextNode_unset w Hunset Hne).
        split; [reflexivity | ]. apply Hframe. cbn [length]. lia.
    + unfold completion, exec. rewrite (selectPreviousNode_unset w Hunset).
      split; [reflexivity | exact Hsame].
  - assert (Hi : 0 <= selectedIndex w < Z.of_nat (length (gitNodes w))) by lia.
    split.
    + unfold completion, exec. rewrite (selectNextNode_in_range w Hi).
      split; [reflexivity | ]. apply Hframe.
      destruct (Z.ltb_spec (selectedIndex w)
                           (Z.of_nat (length (gitNodes w)) - 1)); lia.
    + unfold completion, exec. rewrite (selectPreviousNode_in_range w Hi).
      split; [reflexivity | ]. apply Hframe.
      destruct (Z.ltb_spec 0 (selectedIndex w)); lia.
Qed.

Lemma selectPrevious_selectNext_state (w : Widget) :
  0 <= selectedIndex w < Z.of_nat (length (gitNodes w)) ->
  (selectPreviousNode ;;; selectNextNode) w = (Returned tt, w).
Proof.
  intros Hi. unfold bind. rewrite (selectPreviousNode_in_range w Hi).
  unfold set_selectedIndex at 1.
  rewrite selectNextNode_in_range.
  - unfold set_selectedIndex. cbn.
    destruct w as [fs os gs i rs]. cbn in *. f_equal. f_equal.
    destruct (Z.ltb_spec 0 i).
    + test_holds (i - 1 <? Z.of_nat (length gs) - 1). lia.
    + replace (Z.of_nat (length gs) - 1 <? Z.of_nat (length gs) - 1)
        with false by (symmetry; apply Z.ltb_irrefl).
      lia.
  - cbn. destruct (Z.ltb_spec 0 (selectedIndex w)); lia.
Qed.

(** X2: from a selected index of the list, [selectPreviousNode] followed by
    [selectNextNode] returns normally, ends on the index it started from
    and keeps the lists and the options, also from index 0, which goes to
    the last index and back. *)
Theorem selectPrevious_then_selectNext (w : Widget) :
  0 <= selectedIndex w < Z.of_nat (length (gitNodes w)) ->
  completion (selectPreviousNode ;;; selectNextNode) w = Returned tt /\
  selectedIndex (exec (selectPreviousNode ;;; selectNextNode) w) =
    selectedIndex w /\
  same_content w (exec (selectPreviousNode ;;; selectNextNode) w) /\
  (selectedIndex w = 0 ->
     selectedIndex (exec selectPreviousNode w) =
     Z.of_nat (length (gitNodes w)) - 1).
Proof.
  intros Hi. unfold completion, exec, same_content.
  rewrite (selectPrevious_selectNext_state w Hi).
  split; [reflexivity | ]. split; [reflexivity | ].
  split; [repeat split | ].
  intros H0. rewrite (selectPreviousNode_in_range w Hi), H0. reflexivity.
Qed.

Lemma times_selectNextNode (k : nat) :
  forall w : Widget,
  0 <= selectedIndex w < Z.of_nat (length (gitNodes w)) ->
  times k selectNextNode w =
  set_selectedIndex
    ((selectedIndex w + Z.of_nat k) mod Z.of_nat (length (gitNodes w))) w.
Proof.
  induction k as [ | k IH]; intros w Hi.
  - cbn [times]. rewrite Z.add_0_r, Z.mod_small by lia.
    unfold ret, set_selectedIndex. rewrite widget_eta. reflexivity.
  - cbn [times]. unfold bind. rewrite (selectNextNode_in_range w Hi).
    unfold set_selectedIndex at 1.
    set (k1 := if selectedIndex w <? Z.of_nat (length (gitNodes w)) - 1
               then selectedIndex w + 1 else 0).
    assert (Hk1 : k1 = (selectedIndex w + 1) mod Z.of_nat (length (gitNodes w))).
    { subst k1.
      destruct (Z.ltb_spec (selectedIndex w) (Z.of_nat (length (gitNodes w)) - 1)).
      - rewrite Z.mod_small; lia.
      - replace (selectedIndex w + 1) with (Z.of_nat (length (gitNodes w))) by lia.
        rewrite Z.mod_same; lia. }
    rewrite IH.
    + unfold set_selectedIndex. cbn. f_equal. f_equal.
      rewrite Hk1, Z.add_mod_idemp_l by lia. f_equal. lia.
    + cbn. rewrite Hk1. apply Z.mod_pos_bound. lia.
Qed.

(** X3: [selectNextNode] walks the list as a cycle.  From a selected index
    [i] of a list of [n] entries, [k] steps return normally, select index
    [(i + k) mod n] and keep the lists and the options; [n] steps end on
    [i] again. *)
Theorem selectNextNode_cycle (w : Widget) :
  0 <= selectedIndex w < Z.of_nat (length (gitNodes w)) ->
  (forall k : nat,
     completion (times k selectNextNode) w = Returned tt /\
     selectedIndex (exec (times k selectNextNode) w) =
       (selectedIndex w + Z.of_nat k) mod Z.of_nat (length (gitNodes w)) /\
     same_content w (exec (times k selectNextNode) w)) /\
  selectedIndex (exec (times (length (gitNodes w)) selectNextNode) w) =
    selectedIndex w.
Proof.
  intros Hi. split.
  - intros k. unfold completion, exec, same_content.
    rewrite (times_selectNextNode k w Hi). cbn. repeat split.
  - unfold exec. rewrite (times_selectNextNode (length (gitNodes w)) w Hi).
    cbn [snd set_selectedIndex selectedIndex].
    rewrite <- (Z.mul_1_l (Z.of_nat (length (gitNodes w)))) at 1.
    rewrite Z.mod_add, Z.mod_small by lia. reflexivity.
Qed.

(** X4: with nothing selected, [selectPreviousNode], [openSelected] and
    [handleListEnter] do nothing on any list; [selectNextNode] and
    [navigateRight] do nothing on the empty list; on a non-empty list
    [selectNextNode] returns normally, selects index 0 and keeps the lists
    and the options. *)
Theorem nothing_selected_steps (w : Widget) :
  selectedIndex w = -1 ->
  selectPreviousNode w = (Returned tt, w) /\
  openSelected w = (Returned tt, w) /\
  handleListEnter w = (Returned tt, w) /\
  (gitNodes w = [] ->
     selectNextNode w = (Returned tt, w) /\
     navigateRight w = (Returned tt, w)) /\
  (gitNodes w <> [] ->
     completion selectNextNode w = Returned tt /\
     selectedIndex (exec selectNextNode w) = 0 /\
     same_content w (exec selectNextNode w)).
Proof.
  intros Hi.
  assert (Hopen : openSelected w = (Returned tt, w)).
  { unfold openSelected, bind. rewrite (getSelected_unset w Hi). reflexivity. }
  split; [apply selectPreviousNode_unset; exact Hi | ].
  split; [exact Hopen | ]. split; [exact Hopen | ]. split.
  - intros Hnil. split; [apply selectNextNode_empty; assumption | ].
    unfold navigateRight. unfold bind at 1. rewrite (getSelected_unset w Hi).
    cbn [narrowed GitFileChangeNode_is]. unfold bind, this.
    rewrite Hnil. reflexivity.
  - intros Hne. unfold completion, exec, same_content.
    rewrite (selectNextNode_unset w Hi Hne). cbn. repeat split.
Qed.

End SelectionSteps.

(** ** Navigation between hunks and files *)

Section NavigationSteps.

Context {lib : UriLibrary} {editorManager : EditorManager}
        {navigators : DiffNavigators}.

Lemma navigateRight_selected (w : Widget) (o : DiffOptions)
      (change : GitFileChange) :
  options w = Some o ->
  getSelected w = (Returned (Some change), w) ->
  navigateRight w =
  unawaited
    match getByUri (uriToOpen o change) with
    | Some widget =>
        if canNavigate (diffNavigatorProvider (editor widget))
           && hasNext (diffNavigatorProvider (editor widget))
        then send (NavigatorNext (editor widget))
        else selectNextNode ;;; openSelected
    | None => unawaited (revealChange change)
    end w.
Proof.
  intros Ho Hsel. unfold navigateRight. unfold bind at 1. rewrite Hsel.
  cbn [narrowed GitFileChangeNode_is].
  unfold bind at 1. rewrite (getUriToOpen_active w o change Ho).
  reflexivity.
Qed.

Lemma navigateLeft_selected (w : Widget) (o : DiffOptions)
      (change : GitFileChange) :
  options w = Some o ->
  getSelected w = (Returned (Some change), w) ->
  navigateLeft w =
  unawaited
    match getByUri (uriToOpen o change) with
    | Some widget =>
        if canNavigate (diffNavigatorProvider (editor widget))
           && hasPrevious (diffNavigatorProvider (editor widget))
        then send (NavigatorPrevious (editor widget))
        else selectPreviousNode ;;; openSelected
    | None => unawaited (revealChange change)
    end w.
Proof.
  intros Ho Hsel. unfold navigateLeft. unfold bind at 1. rewrite Hsel.
  cbn [narrowed GitFileChangeNode_is].
  unfold bind at 1. rewrite (getUriToOpen_active w o change Ho).
  reflexivity.
Qed.

(** X5: hunks come before files.  When the selected entry's editor is open
    and its navigator has a further hunk in the direction asked,
    [navigateRight] (resp. [navigateLeft]) only tells that navigator to move:
    the selection stays and no editor is opened. *)
Theorem navigation_moves_within_the_editor (w : Widget) (o : DiffOptions)
        (change : GitFileChange) (widget : EditorWidget) :
  options w = Some o ->
  0 <= selectedIndex w ->
  nth_error (gitNodes w) (Z.to_nat (selectedIndex w)) = Some change ->
  getByUri (uriToOpen o change) = Some widget ->
  (canNavigate (diffNavigatorProvider (editor widget))
     && hasNext (diffNavigatorProvider (editor widget)) = true ->
   navigateRight w = send (NavigatorNext (editor widget)) w /\
   selectedIndex (exec navigateRight w) = selectedIndex w /\
   sent navigateRight w = [NavigatorNext (editor widget)]) /\
  (canNavigate (diffNavigatorProvider (editor widget))
     && hasPrevious (diffNavigatorProvider (editor widget)) = true ->
   navigateLeft w = send (NavigatorPrevious (editor widget)) w /\
   selectedIndex (exec navigateLeft w) = selectedIndex w /\
   sent navigateLeft w = [NavigatorPrevious (editor widget)]).
Proof.
  intros Ho Hi Hnth Hget.
  assert (Hsel := getSelected_at w change Hi Hnth).
  split; intros Hnav.
  - assert (Heq : navigateRight w = send (NavigatorNext (editor widget)) w).
    { rewrite (navigateRight_selected w o change Ho Hsel), Hget, Hnav.
      reflexivity. }
    split; [exact Heq | ]. split.
    + unfold exec. rewrite Heq. reflexivity.
    + apply sent_app. unfold exec. rewrite Heq. reflexivity.
  - assert (Heq : navigateLeft w = send (NavigatorPrevious (editor widget)) w).
    { rewrite (navigateLeft_selected w o change Ho Hsel), Hget, Hnav.
      reflexivity. }
    split; [exact Heq | ]. split.
    + unfold exec. rewrite Heq. reflexivity.
    + apply sent_app. unfold exec. rewrite Heq. reflexivity.
Qed.

Lemma navigateRight_next_state (w : Widget) (o : DiffOptions)
      (change next : GitFileChange) (widget : EditorWidget) :
  options w = Some o ->
  0 <= selectedIndex w < Z.of_nat (length (gitNodes w)) ->
  nth_error (gitNodes w) (Z.to_nat (selectedIndex w)) = Some change ->
  getByUri (uriToOpen o change) = Some widget ->
  canNavigate (diffNavigatorProvider (editor widget))
    && hasNext (diffNavigatorProvider (editor widget)) = false ->
  nth_error (gitNodes w)
    (Z.to_nat ((selectedIndex w + 1) mod Z.of_nat (length (gitNodes w))))
  = Some next ->
  navigateRight w =
  (Returned tt,
   mkWidget (fileChangeNodes w) (options w) (gitNodes w)
            ((selectedIndex w + 1) mod Z.of_nat (length (gitNodes w)))
            (requests w ++ [EditorOpen (uriToOpen o next)
                                       (Some (mkOpenerOptions "reveal"))])).
Proof.
  intros Ho Hi Hnth Hget Hnav Hnext.
  assert (Hsel := getSelected_at w change (proj1 Hi) Hnth).
  rewrite (navigateRight_selected w o change Ho Hsel), Hget, Hnav.
  unfold unawaited, bind. rewrite (selectNextNode_in_range w Hi).
  unfold set_selectedIndex.
  assert (Hk : (if selectedIndex w <? Z.of_nat (length (gitNodes w)) - 1
                then selectedIndex w + 1 else 0)
               = (selectedIndex w + 1) mod Z.of_nat (length (gitNodes w))).
  { destruct (Z.ltb_spec (selectedIndex w) (Z.of_nat (length (gitNodes w)) - 1)).
    - rewrite Z.mod_small; lia.
    - replace (selectedIndex w + 1) with (Z.of_nat (length (gitNodes w))) by lia.
      rewrite Z.mod_same; lia. }
  rewrite Hk.
  rewrite (openSelected_at _ o next); cbn; try assumption; [reflexivity | ].
  apply Z.mod_pos_bound. lia.
Qed.

Lemma navigateLeft_previous_state (w : Widget) (o : DiffOptions)
      (change previous : GitFileChange) (widget : EditorWidget) :
  options w = Some o ->
  0 <= selectedIndex w < Z.of_nat (length (gitNodes w)) ->
  nth_error (gitNodes w) (Z.to_nat (selectedIndex w)) = Some change ->
  getByUri (uriToOpen o change) = Some widget ->
  canNavigate (diffNavigatorProvider (editor widget))
    && hasPrevious (diffNavigatorProvider (editor widget)) = false ->
  nth_error (gitNodes w)
    (Z.to_nat ((selectedIndex w - 1) mod Z.of_nat (length (gitNodes w))))
  = Some previous ->
  navigateLeft w =
  (Returned tt,
   mkWidget (fileChangeNodes w) (options w) (gitNodes w)
            ((selectedIndex w - 1) mod Z.of_nat (length (gitNodes w)))
            (requests w ++ [EditorOpen (uriToOpen o previous)
                                       (Some (mkOpenerOptions "reveal"))])).
Proof.
  intros Ho Hi Hnth Hget Hnav Hprev.
  assert (Hsel := getSelected_at w change (proj1 Hi) Hnth).
  rewrite (navigateLeft_selected w o change Ho Hsel), Hget, Hnav.
  unfold unawaited, bind. rewrite (selectPreviousNode_in_range w Hi).
  unfold set_selectedIndex.
  assert (Hk : (if 0 <? selectedIndex w
                then selectedIndex w - 1 else Z.of_nat (length (gitNodes w)) - 1)
               = (selectedIndex w - 1) mod Z.of_nat (length (gitNodes w))).
  { destruct (Z.ltb_spec 0 (selectedIndex w)).
    - rewrite Z.mod_small; lia.
    - replace (selectedIndex w - 1)
        with (Z.of_nat (length (gitNodes w)) - 1
              + (-1) * Z.of_nat (length (gitNodes w))) by lia.
      rewrite Z.mod_add, Z.mod_small; lia. }
  rewrite Hk.
  rewrite (openSelected_at _ o previous); cbn; try assumption; [reflexivity | ].
  apply Z.mod_pos_bound. lia.
Qed.

(** X6: when the selected entry's editor is open and its navigator has no
    further hunk, [navigateRight] returns normally, selects the next entry,
    the first one after the last, keeps the lists and the options, and,
    repaint requests apart, sends exactly one request: the reveal of the
    newly selected entry's URI. *)
Theorem navigateRight_opens_the_next_file (w : Widget) (o : DiffOptions)
        (change next : GitFileChange) (widget : EditorWidget) :
  options w = Some o ->
  0 <= selectedIndex w < Z.of_nat (length (gitNodes w)) ->
  nth_error (gitNodes w) (Z.to_nat (selectedIndex w)) = Some change ->
  getByUri (uriToOpen o change) = Some widget ->
  canNavigate (diffNavigatorProvider (editor widget))
    && hasNext (diffNavigatorProvider (editor widget)) = false ->
  nth_error (gitNodes w)
    (Z.to_nat ((selectedIndex w + 1) mod Z.of_nat (length (gitNodes w))))
  = Some next ->
  completion navigateRight w = Returned tt /\
  selectedIndex (exec navigateRight w) =
    (selectedIndex w + 1) mod Z.of_nat (length (gitNodes w)) /\
  same_content w (exec navigateRight w) /\
  apart_from_updates (sent navigateRight w) =
    [EditorOpen (uriToOpen o next) (Some (mkOpenerOptions "reveal"))].
Proof.
  intros Ho Hi Hnth Hget Hnav Hnext.
  assert (Hrun := navigateRight_next_state w o change next widget
                    Ho Hi Hnth Hget Hnav Hnext).
  rewrite (sent_app navigateRight w
             [EditorOpen (uriToOpen o next) (Some (mkOpenerOptions "reveal"))]);
    unfold completion, exec, same_content; rewrite Hrun; [ | reflexivity].
  cbn. repeat split.
Qed.

(** X7: when the selected entry's editor is open and its navigator has no
    earlier hunk, [navigateLeft] returns normally, selects the previous
    entry, the last one before the first, keeps the lists and the options,
    and, repaint requests apart, sends exactly one request: the reveal of
    the newly selected entry's URI. *)
Theorem navigateLeft_opens_the_previous_file (w : Widget) (o : DiffOptions)
        (change previous : GitFileChange) (widget : EditorWidget) :
  options w = Some o ->
  0 <= selectedIndex w < Z.of_nat (length (gitNodes w)) ->
  nth_error (gitNodes w) (Z.to_nat (selectedIndex w)) = Some change ->
  getByUri (uriToOpen o change) = Some widget ->
  canNavigate (diffNavigatorProvider (editor widget))
    && hasPrevious (diffNavigatorProvider (editor widget)) = false ->
  nth_error (gitNodes w)
    (Z.to_nat ((selectedIndex w - 1) mod Z.of_nat (length (gitNodes w))))
  = Some previous ->
  completion navigateLeft w = Returned tt /\
  selectedIndex (exec navigateLeft w) =
    (selectedIndex w - 1) mod Z.of_nat (length (gitNodes w)) /\
  same_content w (exec navigateLeft w) /\
  apart_from_updates (sent navigateLeft w) =
    [EditorOpen (uriToOpen o previous) (Some (mkOpenerOptions "reveal"))].
Proof.
  intros Ho Hi Hnth Hget Hnav Hprev.
  assert (Hrun := navigateLeft_previous_state w o change previous widget
                    Ho Hi Hnth Hget Hnav Hprev).
  rewrite (sent_app navigateLeft w
             [EditorOpen (uriToOpen o previous) (Some (mkOpenerOptions "reveal"))]);
    unfold completion, exec, same_content; rewrite Hrun; [ | reflexivity].
  cbn. repeat split.
Qed.

(** X8: with no editor open on the selected entry's URI the two directions
    do the same: each reveals the selected entry once more, with one open
    request, and the selection stays where it is. *)
Theorem navigation_without_editor_reveals (w : Widget) (o : DiffOptions)
        (change : GitFileChange) :
  options w = Some o ->
  0 <= selectedIndex w ->
  nth_error (gitNodes w) (Z.to_nat (selectedIndex w)) = Some change ->
  getByUri (uriToOpen o change) = None ->
  navigateRight w = navigateLeft w /\
  navigateRight w =
  (Returned tt,
   mkWidget (fileChangeNodes w) (options w) (gitNodes w) (selectedIndex w)
            (requests w ++ [EditorOpen (uriToOpen o change)
                                       (Some (mkOpenerOptions "reveal"))])).
Proof.
  intros Ho Hi Hnth Hget.
  assert (Hsel := getSelected_at w change Hi Hnth).
  rewrite (navigateRight_selected w o change Ho Hsel),
          (navigateLeft_selected w o change Ho Hsel), Hget.
  split; [reflexivity | ]. unfold unawaited.
  rewrite (revealChange_active w o change Ho). reflexivity.
Qed.

End NavigationSteps.

(** ** What navigation never does *)

Section NavigationFrame.

Context {lib : UriLibrary} {editorManager : EditorManager}
        {navigators : DiffNavigators}.

Lemma frame_refl (n : nat) (w : Widget) : navigation_frame n w w.
Proof.
  split; [repeat split | ]. split; [tauto | ].
  exists []. rewrite app_nil_r. split; [reflexivity | ].
  split; [cbn; lia | reflexivity].
Qed.

Lemma frame_trans (a b : nat) (w w1 w2 : Widget) :
  navigation_frame a w w1 -> navigation_frame b w1 w2 ->
  navigation_frame (a + b) w w2.
Proof.
  intros ((Hf1 & Hg1 & Ho1) & Hr1 & rs1 & Hq1 & Hl1 & Hd1)
         ((Hf2 & Hg2 & Ho2) & Hr2 & rs2 & Hq2 & Hl2 & Hd2).
  split; [ | split ].
  - unfold same_content. repeat split; congruence.
  - intros H. apply Hr2, Hr1, H.
  - exists (rs1 ++ rs2)%list. split; [ | split ].
    + rewrite Hq2, Hq1, app_assoc. reflexivity.
    + rewrite length_app. lia.
    + rewrite filter_app, Hd1, Hd2. reflexivity.
Qed.

Lemma frame_weaken (a b : nat) (w w' : Widget) :
  (a <= b)%nat -> navigation_frame a w w' -> navigation_frame b w w'.
Proof.
  intros Hab (Hc & Hr & rs & Hq & Hl & Hd).
  split; [exact Hc | ]. split; [exact Hr | ].
  exists rs. repeat split; try assumption. lia.
Qed.

Lemma exec_bind {A B} (m : M A) (k : A -> M B) (w : Widget) :
  exec (bind m k) w =
  match completion m w with
  | Returned a => exec (k a) (exec m w)
  | Thrown => exec m w
  end.
Proof.
  unfold exec, completion, bind. destruct (m w) as [[a | ] w']; reflexivity.
Qed.

Lemma frame_send (r : Request) (w : Widget) :
  is_GitDiff r = false -> navigation_frame 1 w (exec (send r) w).
Proof.
  intros Hr. split; [repeat split | ]. split; [intros H; exact H | ].
  exists [r]. split; [reflexivity | ].
  split; [cbn; lia | cbn; rewrite Hr; reflexivity].
Qed.

Lemma frame_selectNodeAt (k : Z) (w : Widget) :
  navigation_frame 0 w (exec (selectNodeAt k) w).
Proof.
  unfold selectNodeAt, exec, bind, this.
  destruct ((0 <=? k) && (k <? Z.of_nat (length (gitNodes w)))) eqn:Hk.
  - apply andb_true_iff in Hk. destruct Hk as [H0 Hn].
    apply Z.leb_le in H0. apply Z.ltb_lt in Hn.
    split; [repeat split | ]. split.
    + intros _. unfold selection_in_range. cbn. lia.
    + exists []. cbn. rewrite app_nil_r. repeat split. lia.
  - apply frame_refl.
Qed.

Lemma frame_selectNextNode (w : Widget) :
  navigation_frame 0 w (exec selectNextNode w).
Proof.
  unfold selectNextNode, indexOfSelected, exec, bind, this, ret.
  cbn beta iota.
  destruct ((0 <=? selectedIndex w)
            && (selectedIndex w <? Z.of_nat (length (gitNodes w)) - 1)).
  - apply frame_selectNodeAt.
  - destruct ((0 <? Z.of_nat (length (gitNodes w)))
              && ((selectedIndex w =? -1)
                  || (selectedIndex w =? Z.of_nat (length (gitNodes w)) - 1))).
    + apply frame_selectNodeAt.
    + apply frame_refl.
Qed.

Lemma frame_selectPreviousNode (w : Widget) :
  navigation_frame 0 w (exec selectPreviousNode w).
Proof.
  unfold selectPreviousNode, indexOfSelected, exec, bind, this, ret.
  cbn beta iota.
  destruct (0 <? selectedIndex w).
  - apply frame_selectNodeAt.
  - destruct (selectedIndex w =? 0).
    + apply frame_selectNodeAt.
    + apply frame_refl.
Qed.

Lemma frame_revealChange (change : GitFileChange) (w : Widget) :
  navigation_frame 1 w (exec (revealChange change) w).
Proof.
  destruct (options w) as [o | ] eqn:Ho.
  - unfold exec. rewrite (revealChange_active w o change Ho).
    apply (frame_send (EditorOpen (uriToOpen o change)
                                  (Some (mkOpenerOptions "reveal"))) w).
    reflexivity.
  - unfold exec, revealChange, openChange, bind.
    rewrite (getUriToOpen_inactive w change Ho). apply frame_refl.
Qed.

Lemma getSelected_pure (w : Widget) :
  exists selected, getSelected w = (Returned selected, w).
Proof. unfold getSelected, bind, this, ret. eexists. reflexivity. Qed.

Lemma frame_openSelected (w : Widget) :
  navigation_frame 1 w (exec openSelected w).
Proof.
  destruct (getSelected_pure w) as [selected Hsel].
  unfold exec, openSelected, bind. rewrite Hsel.
  destruct selected as [change | ].
  - exact (frame_revealChange change w).
  - apply frame_refl.
Qed.

Lemma frame_then_openSelected (m : M unit) (w : Widget) :
  navigation_frame 0 w (exec m w) ->
  navigation_frame 1 w (exec (m ;;; openSelected) w).
Proof.
  intros Hm. rewrite exec_bind. destruct (completion m w) as [[] | ].
  - apply (frame_trans 0 1 w (exec m w)); [exact Hm | apply frame_openSelected].
  - apply (frame_weaken 0 1); [lia | exact Hm].
Qed.

Lemma navigateRight_unselected (w : Widget) :
  getSelected w = (Returned None, w) ->
  navigateRight w =
  if 0 <? Z.of_nat (length (gitNodes w))
  then (selectNodeAt 0 ;;; openSelected) w
  else (Returned tt, w).
Proof.
  intros Hsel. unfold navigateRight. unfold bind at 1. rewrite Hsel.
  cbn [narrowed GitFileChangeNode_is]. unfold bind at 1, this.
  destruct (0 <? Z.of_nat (length (gitNodes w))); reflexivity.
Qed.

Lemma navigateLeft_unselected (w : Widget) :
  getSelected w = (Returned None, w) -> navigateLeft w = (Returned tt, w).
Proof.
  intros Hsel. unfold navigateLeft, bind. rewrite Hsel. reflexivity.
Qed.

Lemma navigation_inactive (w : Widget) (change : GitFileChange) :
  options w = None ->
  getSelected w = (Returned (Some change), w) ->
  navigateRight w = (Thrown, w) /\ navigateLeft w = (Thrown, w).
Proof.
  intros Ho Hsel. split.
  - unfold navigateRight. unfold bind at 1. rewrite Hsel.
    cbn [narrowed GitFileChangeNode_is]. unfold bind.
    rewrite (getUriToOpen_inactive w change Ho). reflexivity.
  - unfold navigateLeft. unfold bind at 1. rewrite Hsel.
    cbn [narrowed GitFileChangeNode_is]. unfold bind.
    rewrite (getUriToOpen_inactive w change Ho). reflexivity.
Qed.

Lemma navigation_frames (w : Widget) :
  navigation_frame 1 w (exec navigateRight w) /\
  navigation_frame 1 w (exec navigateLeft w).
Proof.
  destruct (getSelected_pure w) as [[change | ] Hsel].
  - destruct (options w) as [o | ] eqn:Ho.
    + split; unfold exec.
      * rewrite (navigateRight_selected w o change Ho Hsel).
        unfold unawaited at 1. cbn [snd].
        destruct (getByUri (uriToOpen o change)) as [widget | ].
        -- destruct (canNavigate (diffNavigatorProvider (editor widget))
                     && hasNext (diffNavigatorProvider (editor widget))).
           ++ apply frame_send. reflexivity.
           ++ apply frame_then_openSelected, frame_selectNextNode.
        -- exact (frame_revealChange change w).
      * rewrite (navigateLeft_selected w o change Ho Hsel).
        unfold unawaited at 1. cbn [snd].
        destruct (getByUri (uriToOpen o change)) as [widget | ].
        -- destruct (canNavigate (diffNavigatorProvider (editor widget))
                     && hasPrevious (diffNavigatorProvider (editor widget))).
           ++ apply frame_send. reflexivity.
           ++ apply frame_then_openSelected, frame_selectPreviousNode.
        -- exact (frame_revealChange change w).
    + destruct (navigation_inactive w change Ho Hsel) as [Hr Hl].
      unfold exec. rewrite Hr, Hl. split; apply frame_refl.
  - split; unfold exec.
    + rewrite (navigateRight_unselected w Hsel).
      destruct (0 <? Z.of_nat (length (gitNodes w))).
      * apply frame_then_openSelected, frame_selectNodeAt.
      * apply frame_refl.
    + rewrite (navigateLeft_unselected w Hsel). apply frame_refl.
Qed.

(** X9: whatever the widget holds and whatever the collaborators answer,
    also when the call throws, [navigateRight] and [navigateLeft] keep
    [fileChangeNodes], [gitNodes] and the options, leave a selection that
    was inside the list inside it, never send a diff request to the
    version-control client and, repaint requests apart, send at most one
    request. *)
Theorem navigation_keeps_content (w : Widget) :
  navigation_keeps 1 w (exec navigateRight w) /\
  navigation_keeps 1 w (exec navigateLeft w).
Proof.
  destruct (navigation_frames w) as [Hr Hl].
  split; apply frame_keeps; assumption.
Qed.

(** X10: before any options are set, reading the revision range throws.
    [openChange] throws, and so do [navigateRight] and [navigateLeft] on a
    selected entry, with the widget untouched and nothing sent; the
    promises of [revealChange] and of [openChanges] on a URI of the list
    are rejected; [openSelected] and [handleListEnter], which drop the
    promise of [revealChange], return normally and send nothing; and
    [openChanges] on a URI that is not in the list returns [undefined]. *)
Theorem opening_without_options_throws (w : Widget) (change : GitFileChange)
        (opts : option EditorOpenerOptions) (u : URI) :
  options w = None ->
  openChange change opts w = (Thrown, w) /\
  revealChange change w = (Thrown, w) /\
  (0 <= selectedIndex w ->
   nth_error (gitNodes w) (Z.to_nat (selectedIndex w)) = Some change ->
   openSelected w = (Returned tt, w) /\
   handleListEnter w = (Returned tt, w) /\
   navigateRight w = (Thrown, w) /\
   navigateLeft w = (Thrown, w)) /\
  (find (fun n => String.eqb (uri n) (URI_toString u)) (fileChangeNodes w)
   = Some change ->
   openChanges u opts w = (Thrown, w)) /\
  (find (fun n => String.eqb (uri n) (URI_toString u)) (fileChangeNodes w)
   = None ->
   openChanges u opts w = (Returned None, w)).
Proof.
  intros Ho.
  assert (Hopen : forall c os, openChange c os w = (Thrown, w)).
  { intros c os. unfold openChange, bind.
    rewrite (getUriToOpen_inactive w c Ho). reflexivity. }
  assert (Hreveal : revealChange change w = (Thrown, w)).
  { unfold revealChange, bind. rewrite Hopen. reflexivity. }
  split; [apply Hopen | ]. split; [exact Hreveal | ]. split; [ | split ].
  - intros Hi Hnth.
    assert (Hsel := getSelected_at w change Hi Hnth).
    assert (Hos : openSelected w = (Returned tt, w)).
    { unfold openSelected. unfold bind at 1. rewrite Hsel.
      unfold unawaited. rewrite Hreveal. reflexivity. }
    split; [exact Hos | ]. split; [exact Hos | ].
    exact (navigation_inactive w change Ho Hsel).
  - intros Hfind. unfold openChanges, bind, this. cbn beta iota.
    rewrite Hfind. apply Hopen.
  - intros Hfind. unfold openChanges, bind, this. cbn beta iota.
    rewrite Hfind. reflexivity.
Qed.

End NavigationFrame.

(** ** Refreshing and restoring the content *)

Section RefreshFacts.

Context {lib : UriLibrary} {git : Git} {repositoryProvider : RepositoryProvider}.

Lemma onGitEvent_active (w : Widget) (o : DiffOptions) :
  options w = Some o -> onGitEvent w = setContent o w.
Proof.
  intros Ho. unfold onGitEvent, bind, this. rewrite Ho. reflexivity.
Qed.

Lemma onGitEvent_inactive (w : Widget) :
  options w = None -> onGitEvent w = (Returned tt, w).
Proof.
  intros Ho. unfold onGitEvent, bind, this. rewrite Ho. reflexivity.
Qed.

Lemma setContent_options (w : Widget) (o : DiffOptions) :
  options (snd (setContent o w)) = Some o.
Proof.
  destruct (findRepositoryOrSelected o) as [r | ] eqn:Hr.
  - rewrite (setContent_with_repository w o r Hr). reflexivity.
  - rewrite (setContent_without_repository w o Hr). reflexivity.
Qed.

(** X11: a git event refreshes with the options already active and never
    changes them.  With no options set it does nothing; with options but no
    repository for them it leaves the widget exactly as it was; with a
    repository it sends one diff request for the active range and URI and
    then a repaint request, and installs the answer. *)
Theorem onGitEvent_refreshes (w : Widget) :
  options (exec onGitEvent w) = options w /\
  (options w = None -> onGitEvent w = (Returned tt, w)) /\
  (forall o, options w = Some o -> findRepositoryOrSelected o = None ->
     onGitEvent w = (Returned tt, w)) /\
  (forall o r, options w = Some o -> findRepositoryOrSelected o = Some r ->
     fileChangeNodes (exec onGitEvent w) =
       git_diff r (options_range o) (options_uri o) /\
     sent onGitEvent w =
       [GitDiff r (options_range o) (options_uri o); Update]).
Proof.
  split; [ | split; [ | split ] ].
  - destruct (options w) as [o | ] eqn:Ho.
    + unfold exec. rewrite (onGitEvent_active w o Ho).
      apply setContent_options.
    + unfold exec. rewrite (onGitEvent_inactive w Ho). exact Ho.
  - apply onGitEvent_inactive.
  - intros o Ho Hr. rewrite (onGitEvent_active w o Ho).
    rewrite (setContent_without_repository w o Hr), <- Ho, widget_eta.
    reflexivity.
  - intros o r Ho Hr. split.
    + unfold exec. rewrite (onGitEvent_active w o Ho).
      rewrite (setContent_with_repository w o r Hr). reflexivity.
    + apply sent_app. unfold exec. rewrite (onGitEvent_active w o Ho).
      rewrite (setContent_with_repository w o r Hr). cbn.
      rewrite <- app_assoc. reflexivity.
Qed.

(** X12: a label change refreshes only when it affects a listed file.
    When it affects none of them, which is always so on an empty list, or
    when no options are set, the listener does nothing; when it affects one
    of them and options are set, it does what a git event does. *)
Theorem onDidChangeLabel_refreshes_when_affected (affects : URI -> bool)
        (w : Widget) :
  ((forall node, In node (fileChangeNodes w) ->
      affects (new_URI (uri node)) = false) ->
   onDidChangeLabel affects w = (Returned tt, w)) /\
  (options w = None -> onDidChangeLabel affects w = (Returned tt, w)) /\
  (forall node, In node (fileChangeNodes w) ->
     affects (new_URI (uri node)) = true ->
     onDidChangeLabel affects w = onGitEvent w).
Proof.
  split; [ | split ].
  - intros Hnone. unfold onDidChangeLabel, bind, this. cbn beta iota zeta.
    replace (existsb (fun node => affects (new_URI (uri node)))
                     (fileChangeNodes w)) with false.
    + destruct (options w); reflexivity.
    + symmetry. apply not_true_is_false. intros Hex.
      apply existsb_exists in Hex. destruct Hex as (node & Hin & Haff).
      rewrite (Hnone node Hin) in Haff. discriminate.
  - intros Ho. unfold onDidChangeLabel, bind, this. cbn beta iota zeta.
    rewrite Ho. reflexivity.
  - intros node Hin Haff. unfold onDidChangeLabel, onGitEvent, bind, this.
    cbn beta iota zeta.
    replace (existsb (fun node => affects (new_URI (uri node)))
                     (fileChangeNodes w)) with true.
    + reflexivity.
    + symmetry. apply existsb_exists. exists node. split; assumption.
Qed.

(** X14: storing right after a restore gives back the restored object, and
    neither call throws: [storeState] after [restoreState(oldState)]
    returns [oldState], whatever the widget held before. *)
Theorem storeState_restoreState (w : Widget) (oldState : StoredState) :
  completion (restoreState oldState ;;; storeState) w = Returned oldState /\
  completion (restoreState oldState) w = Returned tt.
Proof.
  destruct oldState as [nodes opts]. split; reflexivity.
Qed.

End RefreshFacts.

(** ** The header and the resolver *)

Section HeaderFacts.

Context {lib : UriLibrary}.

(** X15: the header shows no revision exactly when [fromRevision] is
    absent, the empty string or the number 0 (the three values that
    [!this.fromRevision] lets through). *)
Theorem renderRevision_null (o : DiffOptions) :
  renderRevision o = None <->
  fromRevision o = None \/
  fromRevision o = Some (RevString EmptyString) \/
  fromRevision o = Some (RevNumber 0).
Proof.
  unfold renderRevision. split.
  - destruct (fromRevision o) as [[s | n] | ]; [ | | intros _; left; reflexivity].
    + destruct (String.eqb_spec s EmptyString) as [-> | _]; [ | discriminate].
      intros _. right. left. reflexivity.
    + destruct (N.eqb_spec n 0) as [-> | _]; [ | discriminate].
      intros _. right. right. reflexivity.
  - intros [H | [H | H]]; rewrite H; reflexivity.
Qed.

(** X16: when the header shows a revision and either [fromRevision] is a
    string or [toRevision] is set and not empty, the text shown is exactly
    the query that [getUriToOpen] attaches to [fromURI]. *)
Theorem header_shows_the_queried_revision (o : DiffOptions)
        (change : GitFileChange) (text : string) :
  renderRevision o = Some text ->
  (exists s, fromRevision o = Some (RevString s)) \/
  Js.truthy (toRevision o) = true ->
  fromURI o change =
  withQuery text (withScheme GIT_RESOURCE_SCHEME (fromURI_base change)).
Proof.
  unfold renderRevision, fromURI, fromQuery.
  destruct (fromRevision o) as [[s | n] | ]; [ | | discriminate].
  - destruct (String.eqb s EmptyString); [discriminate | ].
    intros Htext _. injection Htext as <-. reflexivity.
  - destruct (N.eqb n 0); [discriminate | ].
    intros Htext [[s Hs] | Hto]; [discriminate | ].
    rewrite Hto in Htext. injection Htext as <-. reflexivity.
Qed.

(** X17: what the URI of an entry does not depend on.  For an added entry
    it is decided by the entry's own [uri] and by [toRevision]: [oldUri]
    and [fromRevision] play no part.  For a deleted entry and a string
    [fromRevision] it is decided by [oldUri], [uri] and that string:
    [toRevision] plays no part. *)
Theorem uriToOpen_independence (o o' : DiffOptions) (change change' : GitFileChange) :
  uri change = uri change' ->
  (status change = New -> status change' = New ->
   toRevision o = toRevision o' ->
   uriToOpen o change = uriToOpen o' change') /\
  (forall s, status change = Deleted -> status change' = Deleted ->
   oldUri change = oldUri change' ->
   fromRevision o = Some (RevString s) -> fromRevision o' = Some (RevString s) ->
   uriToOpen o change = uriToOpen o' change').
Proof.
  intros Huri. split.
  - intros Hs Hs' Hto. unfold uriToOpen, toURI.
    rewrite Hs, Hs', Hto, Huri. reflexivity.
  - intros s Hs Hs' Hold Hfrom Hfrom'.
    unfold uriToOpen, fromURI, fromURI_base, fromQuery.
    rewrite Hs, Hs', Hfrom, Hfrom', Hold, Huri. reflexivity.
Qed.

End HeaderFacts.

(** ** The further properties at concrete inputs *)

(** Witness of [select_steps_keep_selection_in_range]: from the last of two
    entries and from no selection. *)
Lemma select_steps_keep_selection_in_range_witness :
  selection_in_range Sample.second_selected /\
  selection_in_range (exec selectNextNode Sample.second_selected) /\
  selection_in_range (exec selectPreviousNode Sample.two_files).
Proof.
  assert (H1 : selection_in_range Sample.second_selected)
    by (unfold selection_in_range; cbn; lia).
  assert (H2 : selection_in_range Sample.two_files)
    by (unfold selection_in_range; cbn; lia).
  pose proof (select_steps_keep_selection_in_range Sample.second_selected H1)
    as ((_ & _ & Hnext & _) & _).
  pose proof (select_steps_keep_selection_in_range Sample.two_files H2)
    as (_ & (_ & _ & Hprev & _)).
  split; [exact H1 | ]. split; [exact (Hnext H1) | exact (Hprev H2)].
Defined.

(** Witness of [selectPrevious_then_selectNext]: from the first of two
    entries, through the last. *)
Lemma selectPrevious_then_selectNext_witness :
  selectedIndex (exec (selectPreviousNode ;;; selectNextNode)
                      Sample.first_selected) = 0 /\
  selectedIndex (exec selectPreviousNode Sample.first_selected) = 1.
Proof.
  assert (Hi : 0 <= selectedIndex Sample.first_selected
               < Z.of_nat (length (gitNodes Sample.first_selected)))
    by (cbn; lia).
  pose proof (selectPrevious_then_selectNext Sample.first_selected Hi)
    as (_ & Hround & _ & Hwrap).
  split; [exact Hround | exact (Hwrap eq_refl)].
Defined.

(** Witness of [selectNextNode_cycle]: two and three steps on two
    entries. *)
Lemma selectNextNode_cycle_witness :
  selectedIndex (exec (times 2 selectNextNode) Sample.second_selected) = 1 /\
  selectedIndex (exec (times 3 selectNextNode) Sample.second_selected) = 0.
Proof.
  assert (Hi : 0 <= selectedIndex Sample.second_selected
               < Z.of_nat (length (gitNodes Sample.second_selected)))
    by (cbn; lia).
  pose proof (selectNextNode_cycle Sample.second_selected Hi) as (Hk & Hn).
  split; [exact Hn | exact (proj1 (proj2 (Hk 3%nat)))].
Defined.

(** Witness of [nothing_selected_steps]: on two files and on no file. *)
Lemma nothing_selected_steps_witness :
  selectPreviousNode Sample.two_files = (Returned tt, Sample.two_files) /\
  selectedIndex (exec selectNextNode Sample.two_files) = 0 /\
  navigateRight (lib := Sample.uris) (editorManager := Sample.all_open)
                (navigators := Sample.exhausted) Sample.no_files =
    (Returned tt, Sample.no_files).
Proof.
  pose proof (@nothing_selected_steps Sample.uris Sample.all_open
                Sample.exhausted Sample.two_files eq_refl)
    as (Hprev & _ & _ & _ & Hnext).
  pose proof (@nothing_selected_steps Sample.uris Sample.all_open
                Sample.exhausted Sample.no_files eq_refl)
    as (_ & _ & _ & Hempty & _).
  assert (Hne : gitNodes Sample.two_files <> []) by discriminate.
  split; [exact Hprev | ]. split.
  - exact (proj1 (proj2 (Hnext Hne))).
  - exact (proj2 (Hempty eq_refl)).
Defined.

(** Witness of [navigation_moves_within_the_editor]: the first file is
    selected and its editor stands between two hunks. *)
Lemma navigation_moves_within_the_editor_witness :
  selectedIndex
    (exec (navigateRight (lib := Sample.uris) (editorManager := Sample.all_open)
                         (navigators := Sample.between_hunks))
          Sample.first_selected) = 0 /\
  sent (navigateRight (lib := Sample.uris) (editorManager := Sample.all_open)
                      (navigators := Sample.between_hunks))
       Sample.first_selected = [NavigatorNext EmptyString] /\
  sent (navigateLeft (lib := Sample.uris) (editorManager := Sample.all_open)
                     (navigators := Sample.between_hunks))
       Sample.first_selected = [NavigatorPrevious EmptyString].
Proof.
  assert (Hi : 0 <= selectedIndex Sample.first_selected) by (cbn; lia).
  pose proof (@navigation_moves_within_the_editor Sample.uris Sample.all_open
                Sample.between_hunks Sample.first_selected Sample.at_abc123
                Sample.a_txt (mkEditorWidget EmptyString)
                eq_refl Hi eq_refl eq_refl) as (Hright & Hleft).
  destruct (Hright eq_refl) as (_ & Hsel & Hsent).
  destruct (Hleft eq_refl) as (_ & _ & Hsent').
  split; [exact Hsel | ]. split; [exact Hsent | exact Hsent'].
Defined.

(** Witness of [navigateRight_opens_the_next_file]: from a.txt to b.txt. *)
Lemma navigateRight_opens_the_next_file_witness :
  selectedIndex
    (exec (navigateRight (lib := Sample.uris) (editorManager := Sample.all_open)
                         (navigators := Sample.exhausted))
          Sample.first_selected) = 1 /\
  apart_from_updates
    (sent (navigateRight (lib := Sample.uris) (editorManager := Sample.all_open)
                         (navigators := Sample.exhausted))
          Sample.first_selected) =
  [EditorOpen (uriToOpen (lib := Sample.uris) Sample.at_abc123 Sample.b_txt)
              (Some (mkOpenerOptions "reveal"))].
Proof.
  assert (Hi : 0 <= selectedIndex Sample.first_selected
               < Z.of_nat (length (gitNodes Sample.first_selected)))
    by (cbn; lia).
  pose proof (@navigateRight_opens_the_next_file Sample.uris Sample.all_open
                Sample.exhausted Sample.first_selected Sample.at_abc123
                Sample.a_txt Sample.b_txt (mkEditorWidget EmptyString)
                eq_refl Hi eq_refl eq_refl eq_refl eq_refl)
    as (_ & Hsel & _ & Hsent).
  split; [exact Hsel | exact Hsent].
Defined.

(** Witness of [navigateLeft_opens_the_previous_file]: from a.txt round to
    b.txt, the last entry. *)
Lemma navigateLeft_opens_the_previous_file_witness :
  selectedIndex
    (exec (navigateLeft (lib := Sample.uris) (editorManager := Sample.all_open)
                        (navigators := Sample.exhausted))
          Sample.first_selected) = 1 /\
  apart_from_updates
    (sent (navigateLeft (lib := Sample.uris) (editorManager := Sample.all_open)
                        (navigators := Sample.exhausted))
          Sample.first_selected) =
  [EditorOpen (uriToOpen (lib := Sample.uris) Sample.at_abc123 Sample.b_txt)
              (Some (mkOpenerOptions "reveal"))].
Proof.
  assert (Hi : 0 <= selectedIndex Sample.first_selected
               < Z.of_nat (length (gitNodes Sample.first_selected)))
    by (cbn; lia).
  pose proof (@navigateLeft_opens_the_previous_file Sample.uris Sample.all_open
                Sample.exhausted Sample.first_selected Sample.at_abc123
                Sample.a_txt Sample.b_txt (mkEditorWidget EmptyString)
                eq_refl Hi eq_refl eq_refl eq_refl eq_refl)
    as (_ & Hsel & _ & Hsent).
  split; [exact Hsel | exact Hsent].
Defined.

(** Witness of [navigation_without_editor_reveals]: a.txt is selected and
    no editor is open. *)
Lemma navigation_without_editor_reveals_witness :
  navigateRight (lib := Sample.uris) (editorManager := Sample.nothing_open)
                (navigators := Sample.exhausted) Sample.first_selected =
  navigateLeft (lib := Sample.uris) (editorManager := Sample.nothing_open)
               (navigators := Sample.exhausted) Sample.first_selected /\
  selectedIndex
    (exec (navigateRight (lib := Sample.uris)
                         (editorManager := Sample.nothing_open)
                         (navigators := Sample.exhausted))
          Sample.first_selected) = 0.
Proof.
  assert (Hi : 0 <= selectedIndex Sample.first_selected) by (cbn; lia).
  pose proof (@navigation_without_editor_reveals Sample.uris Sample.nothing_open
                Sample.exhausted Sample.first_selected Sample.at_abc123
                Sample.a_txt eq_refl Hi eq_refl eq_refl) as (Hsame & Hright).
  split; [exact Hsame | ]. unfold exec. rewrite Hright. reflexivity.
Defined.

(** Witness of [opening_without_options_throws]: the two files in a widget
    that has no options. *)
Lemma opening_without_options_throws_witness :
  openChange (lib := Sample.uris) (editorManager := Sample.all_open)
             Sample.a_txt None Sample.inactive = (Thrown, Sample.inactive) /\
  openSelected (lib := Sample.uris) (editorManager := Sample.all_open)
               Sample.inactive = (Returned tt, Sample.inactive) /\
  navigateRight (lib := Sample.uris) (editorManager := Sample.all_open)
                (navigators := Sample.exhausted) Sample.inactive =
    (Thrown, Sample.inactive) /\
  openChanges (lib := Sample.uris) (editorManager := Sample.all_open)
              (mkURI "file" EmptyString "a.txt" EmptyString EmptyString) None
              Sample.inactive = (Thrown, Sample.inactive) /\
  openChanges (lib := Sample.uris) (editorManager := Sample.all_open)
              (mkURI "file" EmptyString "z.txt" EmptyString EmptyString) None
              Sample.inactive = (Returned None, Sample.inactive).
Proof.
  assert (Hi : 0 <= selectedIndex Sample.inactive) by (cbn; lia).
  pose proof (@opening_without_options_throws Sample.uris Sample.all_open
                Sample.exhausted Sample.inactive Sample.a_txt None
                (mkURI "file" EmptyString "a.txt" EmptyString EmptyString)
                eq_refl) as (Hopen & _ & Hnav & Hfound & _).
  pose proof (@opening_without_options_throws Sample.uris Sample.all_open
                Sample.exhausted Sample.inactive Sample.a_txt None
                (mkURI "file" EmptyString "z.txt" EmptyString EmptyString)
                eq_refl) as (_ & _ & _ & _ & Hmissing).
  destruct (Hnav Hi eq_refl) as (Hos & _ & Hright & _).
  split; [exact Hopen | ]. split; [exact Hos | ]. split; [exact Hright | ].
  split; [exact (Hfound eq_refl) | exact (Hmissing eq_refl)].
Defined.

(** Witness of [onGitEvent_refreshes]: an active widget with a repository,
    one without, and a fresh widget. *)
Lemma onGitEvent_refreshes_witness :
  onGitEvent (git := Sample.one_change)
             (repositoryProvider := Sample.with_repository) Sample.fresh =
    (Returned tt, Sample.fresh) /\
  onGitEvent (git := Sample.one_change)
             (repositoryProvider := Sample.without_repository)
             Sample.two_files = (Returned tt, Sample.two_files) /\
  sent (onGitEvent (git := Sample.one_change)
                   (repositoryProvider := Sample.with_repository))
       Sample.two_files =
    [GitDiff Sample.repo (Some (mkRange None (Some "abc123"))) None; Update].
Proof.
  pose proof (@onGitEvent_refreshes Sample.one_change Sample.with_repository
                Sample.fresh) as (_ & Hnone & _).
  pose proof (@onGitEvent_refreshes Sample.one_change Sample.without_repository
                Sample.two_files) as (_ & _ & Hgone & _).
  pose proof (@onGitEvent_refreshes Sample.one_change Sample.with_repository
                Sample.two_files) as (_ & _ & _ & Hfetch).
  split; [exact (Hnone eq_refl) | ].
  split; [exact (Hgone Sample.at_abc123 eq_refl eq_refl) | ].
  exact (proj2 (Hfetch Sample.at_abc123 Sample.repo eq_refl eq_refl)).
Defined.

(** Witness of [onDidChangeLabel_refreshes_when_affected]: a label change
    on b.txt, and one on a file that is not listed. *)
Lemma onDidChangeLabel_refreshes_when_affected_witness :
  onDidChangeLabel (lib := Sample.uris) (git := Sample.one_change)
                   (repositoryProvider := Sample.with_repository)
                   (fun u => String.eqb (path u) "z.txt") Sample.two_files =
    (Returned tt, Sample.two_files) /\
  onDidChangeLabel (lib := Sample.uris) (git := Sample.one_change)
                   (repositoryProvider := Sample.with_repository)
                   (fun u => String.eqb (path u) "b.txt") Sample.two_files =
    onGitEvent (git := Sample.one_change)
               (repositoryProvider := Sample.with_repository) Sample.two_files.
Proof.
  split.
  - apply (proj1 (@onDidChangeLabel_refreshes_when_affected Sample.uris
                    Sample.one_change Sample.with_repository
                    (fun u => String.eqb (path u) "z.txt") Sample.two_files)).
    intros node [<- | [<- | []]]; reflexivity.
  - apply (proj2 (proj2 (@onDidChangeLabel_refreshes_when_affected Sample.uris
                           Sample.one_change Sample.with_repository
                           (fun u => String.eqb (path u) "b.txt")
                           Sample.two_files))
                 Sample.b_txt).
    + right. left. reflexivity.
    + reflexivity.
Defined.

(** Witness of [renderRevision_null]: zero commits back shows nothing. *)
Lemma renderRevision_null_witness :
  fromRevision Sample.zero_back = Some (RevNumber 0) /\
  renderRevision Sample.zero_back = None.
Proof.
  split; [reflexivity | ].
  apply (proj2 (renderRevision_null Sample.zero_back)).
  right. right. reflexivity.
Defined.

(** Witness of [header_shows_the_queried_revision]: two commits before
    abc123. *)
Lemma header_shows_the_queried_revision_witness :
  renderRevision Sample.two_back_of_abc123 = Some "abc123~2" /\
  fromURI (lib := Sample.uris) Sample.two_back_of_abc123 Sample.a_txt =
    mkURI "gitrev" EmptyString "a.txt" "abc123~2" EmptyString.
Proof.
  split; [reflexivity | ].
  rewrite (@header_shows_the_queried_revision Sample.uris
             Sample.two_back_of_abc123 Sample.a_txt "abc123~2" eq_refl
             (or_intror eq_refl)).
  reflexivity.
Defined.

(** Witness of [uriToOpen_independence]: an added file, with and without a
    prior URI and a [fromRevision]. *)
Lemma uriToOpen_independence_witness :
  uriToOpen (lib := Sample.uris) Sample.v1_to_abc123 Sample.added =
  uriToOpen (lib := Sample.uris) Sample.at_abc123
            (mkChange "n.txt" (Some "old.txt") New) /\
  uriToOpen (lib := Sample.uris) Sample.v1_to_abc123 Sample.deleted =
  uriToOpen (lib := Sample.uris)
            (mkOptions None (Some (mkRange (Some (RevString "v1")) None)))
            Sample.deleted.
Proof.
  split.
  - exact (proj1 (@uriToOpen_independence Sample.uris Sample.v1_to_abc123
                    Sample.at_abc123 Sample.added
                    (mkChange "n.txt" (Some "old.txt") New) eq_refl)
                 eq_refl eq_refl eq_refl).
  - exact (proj2 (@uriToOpen_independence Sample.uris Sample.v1_to_abc123
                    (mkOptions None (Some (mkRange (Some (RevString "v1")) None)))
                    Sample.deleted Sample.deleted eq_refl)
                 "v1" eq_refl eq_refl eq_refl eq_refl eq_refl).
Defined.

(** ** Opening an entry by its URI *)

Section OpenChangesFacts.

Context {lib : UriLibrary} {editorManager : EditorManager}.

Lemma openChanges_found (w : Widget) (u : URI)
      (opts : option EditorOpenerOptions) (change : GitFileChange) :
  find (fun n => String.eqb (uri n) (URI_toString u)) (fileChangeNodes w)
  = Some change ->
  openChanges u opts w = openChange change opts w.
Proof.
  intros Hfind. unfold openChanges, bind, this. cbn beta iota zeta.
  rewrite Hfind. reflexivity.
Qed.

Lemma openChanges_missing (w : Widget) (u : URI)
      (opts : option EditorOpenerOptions) :
  find (fun n => String.eqb (uri n) (URI_toString u)) (fileChangeNodes w)
  = None ->
  openChanges u opts w = (Returned None, w).
Proof.
  intros Hfind. unfold openChanges, bind, this. cbn beta iota zeta.
  rewrite Hfind. reflexivity.
Qed.

Lemma openChange_inactive (w : Widget) (change : GitFileChange)
      (opts : option EditorOpenerOptions) :
  options w = None -> openChange change opts w = (Thrown, w).
Proof.
  intros Ho. unfold openChange, bind.
  rewrite (getUriToOpen_inactive w change Ho). reflexivity.
Qed.

(** X18: [openChanges] opens without selecting.  Whatever it is given, it
    leaves the selection, the lists and the options as they were and sends
    at most one request; with options set and a listed URI that request is
    the open of the first matching entry's URI, with the caller's opener
    options handed on unchanged, and the result is what the editor manager
    answers. *)
Theorem openChanges_does_not_select (w : Widget) (u : URI)
        (opts : option EditorOpenerOptions) :
  selectedIndex (exec (openChanges u opts) w) = selectedIndex w /\
  navigation_frame 1 w (exec (openChanges u opts) w) /\
  (forall o change,
     options w = Some o ->
     find (fun n => String.eqb (uri n) (URI_toString u)) (fileChangeNodes w)
     = Some change ->
     completion (openChanges u opts) w =
       Returned (editorManager_open (uriToOpen o change) opts) /\
     sent (openChanges u opts) w = [EditorOpen (uriToOpen o change) opts]).
Proof.
  assert (Hrun : openChanges u opts w = (Returned None, w) \/
                 (exists change, openChanges u opts w = (Thrown, w)
                                 /\ options w = None /\
                                 openChange change opts w = (Thrown, w)) \/
                 (exists o change,
                    options w = Some o /\
                    openChanges u opts w =
                    (Returned (editorManager_open (uriToOpen o change) opts),
                     mkWidget (fileChangeNodes w) (options w) (gitNodes w)
                              (selectedIndex w)
                              (requests w ++ [EditorOpen (uriToOpen o change) opts])))).
  { destruct (find (fun n => String.eqb (uri n) (URI_toString u))
                   (fileChangeNodes w)) as [change | ] eqn:Hfind.
    - destruct (options w) as [o | ] eqn:Ho.
      + right. right. exists o, change. split; [reflexivity | ].
        rewrite (openChanges_found w u opts change Hfind).
        rewrite (openChange_active w o change opts Ho), Ho. reflexivity.
      + right. left. exists change.
        rewrite (openChanges_found w u opts change Hfind).
        rewrite (openChange_inactive w change opts Ho). repeat split.
    - left. apply openChanges_missing. exact Hfind. }
  split; [ | split ].
  - unfold exec.
    destruct Hrun as [H | [(change & H & _) | (o & change & _ & H)]];
      rewrite H; reflexivity.
  - unfold exec.
    destruct Hrun as [H | [(change & H & _) | (o & change & _ & H)]];
      rewrite H; cbn [snd]; try apply frame_refl.
    apply (frame_send (EditorOpen (uriToOpen o change) opts) w). reflexivity.
  - intros o change Ho Hfind.
    rewrite (sent_app (openChanges u opts) w
                      [EditorOpen (uriToOpen o change) opts]);
      unfold completion, exec;
      rewrite (openChanges_found w u opts change Hfind),
              (openChange_active w o change opts Ho).
    + split; reflexivity.
    + reflexivity.
Qed.

End OpenChangesFacts.

(** Witness of [openChanges_does_not_select]: opening b.txt while a.txt is
    selected. *)
Lemma openChanges_does_not_select_witness :
  selectedIndex
    (exec (openChanges (lib := Sample.uris) (editorManager := Sample.nothing_open)
             (mkURI "file" EmptyString "b.txt" EmptyString EmptyString)
             (Some (mkOpenerOptions "activate")))
          Sample.first_selected) = 0 /\
  sent (openChanges (lib := Sample.uris) (editorManager := Sample.nothing_open)
          (mkURI "file" EmptyString "b.txt" EmptyString EmptyString)
          (Some (mkOpenerOptions "activate")))
       Sample.first_selected =
  [EditorOpen (uriToOpen (lib := Sample.uris) Sample.at_abc123 Sample.b_txt)
              (Some (mkOpenerOptions "activate"))].
Proof.
  pose proof (@openChanges_does_not_select Sample.uris Sample.nothing_open
                Sample.first_selected
                (mkURI "file" EmptyString "b.txt" EmptyString EmptyString)
                (Some (mkOpenerOptions "activate")))
    as (Hsel & _ & Hopen).
  split; [exact Hsel | ].
  exact (proj2 (Hopen Sample.at_abc123 Sample.b_txt eq_refl eq_refl)).
Defined.
